(** * Deferred geometric transforms (monai.transforms.atmostonce)

    A shallow embedding of [apply.py], [array.py] and [utility.py] and the
    properties of the deferred-transform engine that are settled on it.

    Conventions of the embedding
    - Python objects that are compared with [==] or tested with [is None]
      (interpolation mode, padding mode, device, dtype, shape override) are
      values of [pyval]; [PNone] is Python's [None].
    - A [dict] with string keys is a [gmap string pyval]; [d.get(k, None)] is
      [dict_get d k].
    - Functions that can raise, call the resampler or touch a cache live in
      the monad [M S]: a state [S] is threaded through and the result is
      either a value or the exception that was raised.
    - Real numbers of the matrices are rationals in canonical form ([Qc]). *)

From stdpp Require Import base option numbers list gmap strings.
From Stdlib Require Import ZArith QArith Qcanon Qround Lia.

Local Open Scope Z_scope.

(** ** Python values, exceptions and the outcome monad *)

Inductive pyval : Type :=
  | PNone                 (* None *)
  | PStr (s : string)     (* a str, or a str-valued enum member *)
  | PBool (b : bool)
  | PNum (q : Qc)         (* an int or a float *)
  | PSeq (l : list Qc)    (* a list or tuple of numbers *)
  | PTuple1 (v : pyval)   (* the one-element tuple (v,) *)
  | PObj (id : Z).        (* any other object: a device, a dtype, slices *)

#[global] Instance pyval_eq_dec : EqDecision pyval.
Proof. solve_decision. Defined.

Inductive exn : Type :=
  | TypeError
  | UnboundLocalError
  | ValueError
  | AttributeError
  | ExternalError (msg : string).

Inductive outcome (A : Type) : Type :=
  | Ok (a : A)
  | Raise (e : exn).
Arguments Ok {A} a.
Arguments Raise {A} e.

Definition M (S A : Type) : Type := S -> outcome A * S.

Definition ret {S A} (a : A) : M S A := fun s => (Ok a, s).

Definition raise {S A} (e : exn) : M S A := fun s => (Raise e, s).

Definition bind {S A B} (m : M S A) (k : A -> M S B) : M S B :=
  fun s => match m s with
           | (Ok a, s') => k a s'
           | (Raise e, s') => (Raise e, s')
           end.

Notation "'let!' x ':=' m 'in' k" := (bind m (fun x => k))
  (at level 10, x name, m at level 100, k at level 200).

(** A [for] loop whose body updates the loop variables and may raise. *)
Fixpoint for_each {S A St} (body : St -> A -> M S St) (xs : list A) (st : St)
  : M S St :=
  match xs with
  | [] => ret st
  | x :: xs' => let! st' := body st x in for_each body xs' st'
  end.

Definition dict_get (d : gmap string pyval) (k : string) : pyval :=
  default PNone (d !! k).

(** Python truthiness of the values that the wrappers test with [or]. *)
Definition truthy (v : pyval) : bool :=
  match v with
  | PNone => false
  | PStr s => negb (bool_decide (s = EmptyString))
  | PBool b => b
  | PNum q => negb (bool_decide (q = 0%Qc))
  | PSeq l => negb (bool_decide (l = []))
  | PTuple1 _ => true
  | PObj _ => true
  end.

(** [a or b] *)
Definition py_or (a b : pyval) : pyval := if truthy a then a else b.

(** ** apply.py: helpers without collaborators *)

(** [itertools.product] of a list of pools: the rightmost pool advances
    fastest. *)
Fixpoint product {A} (pools : list (list A)) : list (list A) :=
  match pools with
  | [] => [[]]
  | p :: ps => flat_map (fun x => map (cons x) (product ps)) p
  end.

Definition extents_from_shape (shape : list Z) : list (list Z) :=
  let extents := map (fun d => [0; d]) (drop 1 shape) in
  let extents := product extents in
  map (fun e => e ++ [1]) extents.

Definition metadata_is_compatible (value_1 value_2 : pyval) : bool :=
  match value_1 with
  | PNone => true
  | _ => match value_2 with
         | PNone => true
         | _ => bool_decide (value_1 = value_2)
         end
  end.

Definition prepare_args_dict_for_apply
    (cur_mode cur_padding_mode cur_device cur_dtype : pyval)
  : gmap string pyval :=
  let kwargs : gmap string pyval := ∅ in
  let kwargs := if bool_decide (cur_mode <> PNone)
                then <["mode"%string := cur_mode]> kwargs else kwargs in
  let kwargs := if bool_decide (cur_padding_mode <> PNone)
                then <["padding_mode"%string := cur_padding_mode]> kwargs
                else kwargs in
  let kwargs := if bool_decide (cur_device <> PNone)
                then <["device"%string := cur_device]> kwargs else kwargs in
  let kwargs := if bool_decide (cur_dtype <> PNone)
                then <["dtype"%string := cur_dtype]> kwargs else kwargs in
  kwargs.

(** ** apply.py and array.py: the engine and the wrappers

    The collaborators that are not part of these files are parameters:
    the matrix factory and the matrix product of [monai.utils.mapping_stack],
    the resampler [Affine], and the per-operation builders of
    [functional.py]. *)

Section atmostonce.
Context {Matrix Pix : Type}.

(** [MetaMatrix(transform, metadata)] *)
Record MetaMatrix : Type := mkMetaMatrix {
  matrix : Matrix;
  metadata : gmap string pyval
}.

(** The image entity: shape, pixel data and its queue of pending entries. *)
Record MetaTensor : Type := mkMetaTensor {
  shape : list Z;
  pixels : Pix;
  pending_transforms : list MetaMatrix
}.

(** One invocation of the resampler, as recorded in the log. *)
Record resample_call : Type := mkCall {
  call_affine : Matrix;
  call_kwargs : gmap string pyval;
  call_img : MetaTensor
}.

(** [MatrixFactory(dim_count, backend, device).identity()] *)
Variable mf_identity : Z -> Matrix.
(** [MatrixFactory(dim_count, backend, device).translate(offsets)] *)
Variable mf_translate : Z -> list Qc -> Matrix.
(** [a @ b] on matrices *)
Variable matmul : Matrix -> Matrix -> Matrix.
(** [e @ m.matrix.matrix] for a corner [e] *)
Variable vecmat : list Qc -> Matrix -> list Qc.
(** [Affine(norm_coords=False, affine=m, **kwargs)(img=data)] *)
Variable Affine : Matrix -> gmap string pyval -> MetaTensor -> outcome MetaTensor.

(** Effects of [apply]: every resampler invocation is appended to a log. *)
Definition Eff : Type -> Type := M (list resample_call).

Definition resample (affine : Matrix) (kwargs : gmap string pyval)
    (img : MetaTensor) : Eff MetaTensor :=
  fun log => (Affine affine kwargs img, log ++ [mkCall affine kwargs img]).

(** Modelled from the spec: the queue operations of the image entity
    (append, test, peek-last, clear), which [monai.data.MetaTensor] provides
    and the sources call. *)
Definition push_pending_transform (img : MetaTensor) (mm : MetaMatrix)
  : MetaTensor :=
  mkMetaTensor (shape img) (pixels img) (pending_transforms img ++ [mm]).

Definition clear_pending_transforms (img : MetaTensor) : MetaTensor :=
  mkMetaTensor (shape img) (pixels img) [].

Definition has_pending_transforms (img : MetaTensor) : bool :=
  negb (bool_decide (pending_transforms img = [])).

Definition peek_pending_transform (img : MetaTensor) : option MetaMatrix :=
  last (pending_transforms img).

Definition starting_matrix_and_extents (dim_count : Z) (data : MetaTensor)
  : Matrix * list (list Qc) :=
  let cumulative_matrix := mf_identity dim_count in
  let cumulative_extents :=
    map (map (fun c => Q2Qc (inject_Z c))) (extents_from_shape (shape data)) in
  let translate_to_centre :=
    mf_translate dim_count
      (map (fun d => Q2Qc (inject_Z d / 2)) (drop 1 (shape data))) in
  let cumulative_matrix := matmul translate_to_centre cumulative_matrix in
  let cumulative_extents :=
    map (fun e => vecmat e translate_to_centre) cumulative_extents in
  (cumulative_matrix, cumulative_extents).

(** The local variables of [apply] that the loop reads and writes.
    [kwargs] is [None] while the local name is still unbound; [cur_data]
    is the local [data]. *)
Record apply_locals : Type := mkLocals {
  cur_data : MetaTensor;
  cumulative_matrix : Matrix;
  cumulative_extents : list (list Qc);
  cur_mode : pyval;
  cur_padding_mode : pyval;
  cur_device : pyval;
  cur_dtype : pyval;
  kwargs : option (gmap string pyval)
}.

(** The body of [for meta_matrix in pending_]. *)
Definition apply_body (st : apply_locals) (meta_matrix : MetaMatrix)
  : Eff apply_locals :=
  let next_matrix := matrix meta_matrix in
  let cumulative_matrix' := matmul next_matrix (cumulative_matrix st) in
  let cumulative_extents' :=
    map (fun e => vecmat e cumulative_matrix') (cumulative_extents st) in
  let new_mode := dict_get (metadata meta_matrix) "mode" in
  let new_padding_mode := dict_get (metadata meta_matrix) "padding_mode" in
  let new_device := dict_get (metadata meta_matrix) "device" in
  let new_dtype := dict_get (metadata meta_matrix) "dtype" in
  let mode_compat := metadata_is_compatible (cur_mode st) new_mode in
  let padding_mode_compat :=
    metadata_is_compatible (cur_padding_mode st) new_padding_mode in
  let device_compat := metadata_is_compatible (cur_device st) new_device in
  let dtype_compat := metadata_is_compatible (cur_dtype st) new_dtype in
  if negb mode_compat || negb padding_mode_compat
     || negb device_compat || negb dtype_compat
  then
    let kwargs' :=
      prepare_args_dict_for_apply (cur_mode st) (cur_padding_mode st)
                                  (cur_device st) (cur_dtype st) in
    let! data' := resample cumulative_matrix' kwargs' (cur_data st) in
    ret (mkLocals data' cumulative_matrix' cumulative_extents'
                  new_mode new_padding_mode new_device new_dtype
                  (Some kwargs'))
  else
    ret (mkLocals (cur_data st) cumulative_matrix' cumulative_extents'
                  (cur_mode st) (cur_padding_mode st)
                  (cur_device st) (cur_dtype st) (kwargs st)).

(** The locals of [apply] just before the loop. *)
Definition apply_init (data : MetaTensor) : apply_locals :=
  let dim_count := Z.of_nat (length (shape data)) - 1 in
  let '(cumulative_matrix, cumulative_extents) :=
    starting_matrix_and_extents dim_count data in
  mkLocals data cumulative_matrix cumulative_extents
           PNone PNone PNone PNone None.

(** What a call of [apply] hands back: the image, or Python's [None] when
    the function ends without a [return]. *)
Inductive returned : Type :=
  | RImage (img : MetaTensor)
  | RNone.

(** [apply(data, pending)]; [pending = None] is the default argument. *)
Definition apply (data : MetaTensor) (pending : option (list MetaMatrix))
  : Eff returned :=
  let pending_ := pending_transforms data in
  match pending with
  | None => raise TypeError
  | Some p =>
    if bool_decide (length p = 0%nat) then ret (RImage data)
    else
      let! st := for_each apply_body pending_ (apply_init data) in
      match kwargs st with
      | None => raise UnboundLocalError
      | Some kw =>
        let! data' := resample (cumulative_matrix st) kw (cur_data st) in
        let _cleared := clear_pending_transforms data' in
        ret RNone
      end
  end.

(** The accumulated resampling parameters are all unset and [kwargs] is
    unbound: the state in which [apply] enters its loop. *)
Definition nothing_accumulated (st : apply_locals) : Prop :=
  cur_mode st = PNone /\ cur_padding_mode st = PNone
  /\ cur_device st = PNone /\ cur_dtype st = PNone /\ kwargs st = None.

(** *** array.py *)

(** What a wrapper may be called on: a plain array or tensor, or a
    [MetaTensor] that carries a queue. *)
Inductive NdarrayOrTensor : Type :=
  | Plain (shape : list Z) (pixels : Pix)
  | Meta (t : MetaTensor).

(** The triple [(img_t, transform, metadata)] of a builder of
    [functional.py]. *)
Definition built : Type := (MetaTensor * Matrix * gmap string pyval)%type.

Variable spacing : NdarrayOrTensor -> pyval -> pyval -> pyval -> pyval ->
                   pyval -> pyval -> pyval -> pyval -> outcome built.
Variable flip : NdarrayOrTensor -> pyval -> pyval -> outcome built.
Variable resize : NdarrayOrTensor -> pyval -> pyval -> pyval -> pyval ->
                  pyval -> pyval -> pyval -> pyval -> outcome built.
Variable rotate : NdarrayOrTensor -> pyval -> pyval -> pyval -> pyval ->
                  pyval -> pyval -> pyval -> outcome built.
Variable zoom : NdarrayOrTensor -> pyval -> pyval -> pyval -> pyval ->
                pyval -> pyval -> pyval -> outcome built.
Variable rotate90 : NdarrayOrTensor -> pyval -> pyval -> pyval -> outcome built.
Variable translate : NdarrayOrTensor -> pyval -> pyval -> pyval -> pyval ->
                     pyval -> outcome built.
Variable croppad : NdarrayOrTensor -> pyval -> pyval -> pyval -> outcome built.
(** [InterpolateMode(mode)], the enum conversion of [monai.utils]. *)
Variable InterpolateMode : pyval -> outcome pyval.

Definition lift {A} (o : outcome A) : Eff A := fun log => (o, log).

(** The block every [__call__] repeats to find its shape override:
    [shape_override_ = shape_override] and, when that is [None] and the
    image is a [MetaTensor] with pending entries, the ["shape_override"]
    of the last entry. *)
Definition resolve_shape_override (img : NdarrayOrTensor)
    (shape_override : pyval) : pyval :=
  let shape_override_ := shape_override in
  match img with
  | Meta t =>
    if bool_decide (shape_override_ = PNone) && has_pending_transforms t
    then match peek_pending_transform t with
         | Some mm => dict_get (metadata mm) "shape_override"
         | None => shape_override_
         end
    else shape_override_
  | Plain _ _ => shape_override_
  end.

(** The block every [__call__] ends with: push the entry and, unless the
    wrapper is configured for deferred evaluation, call [apply(img_t)]. *)
Definition push_then_apply (lazy_evaluation : pyval) (r : built)
  : Eff returned :=
  let '(img_t, transform, metadata) := r in
  let img_t := push_pending_transform img_t (mkMetaMatrix transform metadata) in
  if negb (truthy lazy_evaluation) then apply img_t None
  else ret (RImage img_t).

Record Spacing : Type := mkSpacing {
  Spacing_pixdim : pyval;
  Spacing_src_pixdim : pyval;
  Spacing_diagonal : pyval;
  Spacing_mode : pyval;
  Spacing_padding_mode : pyval;
  Spacing_align_corners : pyval;
  Spacing_dtype : pyval;
  Spacing_lazy_evaluation : pyval
}.

Definition Spacing_init (pixdim src_pixdim diagonal mode padding_mode
    align_corners dtype lazy_evaluation shape_override : pyval) : Spacing :=
  mkSpacing pixdim src_pixdim diagonal mode padding_mode align_corners dtype
            lazy_evaluation.

Definition Spacing_resolve (self : Spacing)
    (mode padding_mode align_corners dtype : pyval)
  : pyval * pyval * pyval * pyval :=
  let mode_ := py_or mode (Spacing_mode self) in
  let padding_mode_ := py_or padding_mode (Spacing_padding_mode self) in
  let align_corners_ := py_or align_corners (Spacing_align_corners self) in
  let dtype_ := py_or dtype (Spacing_dtype self) in
  (mode_, padding_mode_, align_corners_, dtype_).

Definition Spacing_call (self : Spacing) (img : NdarrayOrTensor)
    (mode padding_mode align_corners dtype shape_override : pyval)
  : Eff returned :=
  let '(mode_, padding_mode_, align_corners_, dtype_) :=
    Spacing_resolve self mode padding_mode align_corners dtype in
  let shape_override_ := resolve_shape_override img shape_override in
  let! r := lift (spacing img (Spacing_pixdim self) (Spacing_src_pixdim self)
                    (Spacing_diagonal self) mode_ padding_mode_
                    align_corners_ dtype_ shape_override_) in
  push_then_apply (Spacing_lazy_evaluation self) r.

Record Flip : Type := mkFlip {
  Flip_spatial_axis : pyval;
  Flip_lazy_evaluation : pyval
}.

Definition Flip_init (spatial_axis lazy_evaluation : pyval) : Flip :=
  mkFlip spatial_axis lazy_evaluation.

(** [spatial_axis_ = self.spatial_axis = spatial_axis]: the wrapper after
    the assignment, and the effective axis. *)
Definition Flip_resolve (self : Flip) (spatial_axis : pyval) : Flip * pyval :=
  (mkFlip spatial_axis (Flip_lazy_evaluation self), spatial_axis).

Definition Flip_call (self : Flip) (img : NdarrayOrTensor)
    (spatial_axis shape_override : pyval) : Flip * Eff returned :=
  let '(self, spatial_axis_) := Flip_resolve self spatial_axis in
  let shape_override_ := resolve_shape_override img shape_override in
  (self,
   let! r := lift (flip img spatial_axis_ shape_override_) in
   push_then_apply (Flip_lazy_evaluation self) r).

Record Resize : Type := mkResize {
  Resize_spatial_size : pyval;
  Resize_size_mode : pyval;
  Resize_mode : pyval;
  Resize_align_corners : pyval;
  Resize_anti_aliasing : pyval;
  Resize_anti_aliasing_sigma : pyval;
  Resize_dtype : pyval;
  Resize_lazy_evaluation : pyval
}.

(** [self.mode = mode,] stores a one-element tuple. *)
Definition Resize_init (spatial_size size_mode mode align_corners
    anti_aliasing anti_aliasing_sigma dtype lazy_evaluation : pyval) : Resize :=
  mkResize spatial_size size_mode (PTuple1 mode) align_corners anti_aliasing
           anti_aliasing_sigma dtype lazy_evaluation.

Definition Resize_resolve (self : Resize)
    (mode align_corners anti_aliasing anti_aliasing_sigma : pyval)
  : pyval * pyval * pyval * pyval :=
  let mode_ := py_or mode (Resize_mode self) in
  let align_corners_ := py_or align_corners (Resize_align_corners self) in
  let anti_aliasing_ := py_or anti_aliasing (Resize_anti_aliasing self) in
  let anti_aliasing_sigma_ :=
    py_or anti_aliasing_sigma (Resize_anti_aliasing_sigma self) in
  (mode_, align_corners_, anti_aliasing_, anti_aliasing_sigma_).

Definition Resize_call (self : Resize) (img : NdarrayOrTensor)
    (mode align_corners anti_aliasing anti_aliasing_sigma shape_override : pyval)
  : Eff returned :=
  let '(mode_, align_corners_, anti_aliasing_, anti_aliasing_sigma_) :=
    Resize_resolve self mode align_corners anti_aliasing anti_aliasing_sigma in
  let shape_override_ := resolve_shape_override img shape_override in
  let! r := lift (resize img (Resize_spatial_size self) (Resize_size_mode self)
                    mode_ align_corners_ anti_aliasing_ anti_aliasing_sigma_
                    (Resize_dtype self) shape_override_) in
  push_then_apply (Resize_lazy_evaluation self) r.

Record Rotate : Type := mkRotate {
  Rotate_angle : pyval;
  Rotate_keep_size : pyval;
  Rotate_mode : pyval;
  Rotate_padding_mode : pyval;
  Rotate_align_corners : pyval;
  Rotate_dtype : pyval;
  Rotate_lazy_evaluation : pyval
}.

Definition Rotate_init (angle keep_size mode padding_mode align_corners dtype
    lazy_evaluation : pyval) : Rotate :=
  mkRotate angle keep_size mode padding_mode align_corners dtype
           lazy_evaluation.

(** The effective [(angle, mode, padding_mode, align_corners, keep_size,
    dtype)] of one call. *)
Definition Rotate_resolve (self : Rotate)
    (angle mode padding_mode align_corners : pyval)
  : pyval * pyval * pyval * pyval * pyval * pyval :=
  let angle := Rotate_angle self in
  let mode := py_or mode (Rotate_mode self) in
  let padding_mode := py_or padding_mode (Rotate_padding_mode self) in
  let align_corners := py_or align_corners (Rotate_align_corners self) in
  let keep_size := Rotate_keep_size self in
  let dtype := Rotate_dtype self in
  (angle, mode, padding_mode, align_corners, keep_size, dtype).

Definition Rotate_call (self : Rotate) (img : NdarrayOrTensor)
    (angle mode padding_mode align_corners shape_override : pyval)
  : Eff returned :=
  let '(angle, mode, padding_mode, align_corners, keep_size, dtype) :=
    Rotate_resolve self angle mode padding_mode align_corners in
  let shape_override_ := resolve_shape_override img shape_override in
  let! r := lift (rotate img angle keep_size mode padding_mode align_corners
                    dtype shape_override_) in
  push_then_apply (Rotate_lazy_evaluation self) r.

Record Zoom : Type := mkZoom {
  Zoom_factor : pyval;
  Zoom_mode : pyval;
  Zoom_padding_mode : pyval;
  Zoom_align_corners : pyval;
  Zoom_keep_size : pyval;
  Zoom_dtype : pyval;
  Zoom_lazy_evaluation : pyval
}.

Definition Zoom_init (factor mode padding_mode align_corners keep_size dtype
    lazy_evaluation : pyval) : outcome Zoom :=
  match InterpolateMode mode with
  | Ok mode' => Ok (mkZoom factor mode' padding_mode align_corners keep_size
                           dtype lazy_evaluation)
  | Raise e => Raise e
  end.

Definition Zoom_resolve (self : Zoom)
    (factor mode padding_mode align_corners : pyval)
  : pyval * pyval * pyval * pyval * pyval * pyval :=
  let factor :=
    if bool_decide (factor = PNone) then Zoom_factor self else factor in
  let mode := if bool_decide (mode = PNone) then Zoom_mode self else mode in
  let padding_mode :=
    if bool_decide (padding_mode = PNone) then Zoom_padding_mode self
    else padding_mode in
  let align_corners :=
    if bool_decide (align_corners = PNone) then Zoom_align_corners self
    else align_corners in
  let keep_size := Zoom_keep_size self in
  let dtype := Zoom_dtype self in
  (factor, mode, padding_mode, align_corners, keep_size, dtype).

Definition Zoom_call (self : Zoom) (img : NdarrayOrTensor)
    (factor mode padding_mode align_corners shape_override : pyval)
  : Eff returned :=
  let '(factor, mode, padding_mode, align_corners, keep_size, dtype) :=
    Zoom_resolve self factor mode padding_mode align_corners in
  let shape_override_ := resolve_shape_override img shape_override in
  let! r := lift (zoom img factor mode padding_mode align_corners keep_size
                    dtype shape_override_) in
  push_then_apply (Zoom_lazy_evaluation self) r.

Record Rotate90 : Type := mkRotate90 {
  Rotate90_k : pyval;
  Rotate90_spatial_axes : pyval;
  Rotate90_lazy_evaluation : pyval
}.

Definition Rotate90_init (k spatial_axes lazy_evaluation : pyval) : Rotate90 :=
  mkRotate90 k spatial_axes lazy_evaluation.

Definition Rotate90_resolve (self : Rotate90) (k spatial_axes : pyval)
  : pyval * pyval :=
  let k_ := py_or k (Rotate90_k self) in
  let spatial_axes_ := py_or spatial_axes (Rotate90_spatial_axes self) in
  (k_, spatial_axes_).

Definition Rotate90_call (self : Rotate90) (img : NdarrayOrTensor)
    (k spatial_axes shape_override : pyval) : Eff returned :=
  let '(k_, spatial_axes_) := Rotate90_resolve self k spatial_axes in
  let shape_override_ := resolve_shape_override img shape_override in
  let! r := lift (rotate90 img k_ spatial_axes_ shape_override_) in
  push_then_apply (Rotate90_lazy_evaluation self) r.

Record Translate : Type := mkTranslate {
  Translate_translation : pyval;
  Translate_mode : pyval;
  Translate_padding_mode : pyval;
  Translate_dtype : pyval;
  Translate_lazy_evaluation : pyval
}.

Definition Translate_init (translation mode padding_mode dtype
    lazy_evaluation : pyval) : outcome Translate :=
  match InterpolateMode mode with
  | Ok mode' => Ok (mkTranslate translation mode' padding_mode dtype
                                lazy_evaluation)
  | Raise e => Raise e
  end.

Definition Translate_resolve (self : Translate) (mode padding_mode : pyval)
  : pyval * pyval * pyval :=
  let mode := py_or (Translate_mode self) mode in
  let padding_mode := py_or (Translate_padding_mode self) padding_mode in
  let dtype := Translate_dtype self in
  (mode, padding_mode, dtype).

Definition Translate_call (self : Translate) (img : NdarrayOrTensor)
    (mode padding_mode shape_override : pyval) : Eff returned :=
  let '(mode, padding_mode, dtype) :=
    Translate_resolve self mode padding_mode in
  let shape_override_ := resolve_shape_override img shape_override in
  let! r := lift (translate img (Translate_translation self) mode padding_mode
                    dtype shape_override_) in
  push_then_apply (Translate_lazy_evaluation self) r.

Record CropPad : Type := mkCropPad {
  CropPad_slices : pyval;
  CropPad_padding_mode : pyval;
  CropPad_lazy_evaluation : pyval
}.

Definition CropPad_init (slices padding_mode lazy_evaluation : pyval)
  : CropPad :=
  mkCropPad slices padding_mode lazy_evaluation.

Definition CropPad_resolve (self : CropPad) (slices : pyval) : pyval :=
  if bool_decide (CropPad_slices self = PNone) then slices
  else CropPad_slices self.

Definition CropPad_call (self : CropPad) (img : NdarrayOrTensor)
    (slices shape_override : pyval) : Eff returned :=
  let slices_ := CropPad_resolve self slices in
  let shape_override_ := resolve_shape_override img shape_override in
  let! r := lift (croppad img slices_ (CropPad_padding_mode self)
                    shape_override_) in
  push_then_apply (CropPad_lazy_evaluation self) r.

(** *** array.py: the randomized wrappers

    The random source [self.R], the base class [RandomizableTransform] and
    [value_to_tuple_range] come from other modules and are parameters. *)

Context {rng : Type}.
(** [self.R.uniform(low=a, high=b)] *)
Variable R_uniform : rng -> Qc -> Qc -> Qc * rng.
(** [self.R.randint(n)] *)
Variable R_randint : rng -> pyval -> Z * rng.
(** [RandomizableTransform.randomize(None)]: decides [_do_transform] from
    the probability. *)
Variable RandomizableTransform_randomize : rng -> pyval -> bool * rng.
Variable value_to_tuple_range : pyval -> Qc * Qc.

(** [len(img.shape) - 1] *)
Definition img_dims_of (img : NdarrayOrTensor) : Z :=
  match img with
  | Plain shape _ => Z.of_nat (length shape) - 1
  | Meta t => Z.of_nat (length (shape t)) - 1
  end.

Record RandRotate90 : Type := mkRandRotate90 {
  RandRotate90_prob : pyval;
  RandRotate90_do_transform : bool;
  RandRotate90_R : rng;
  RandRotate90_max_k : pyval;
  RandRotate90_spatial_axes : pyval;
  RandRotate90_k : Z;
  RandRotate90_op : Rotate90
}.

(** [do_transform] and [R] are what [RandomizableTransform.__init__] left. *)
Definition RandRotate90_init (do_transform : bool) (R : rng)
    (prob max_k spatial_axes lazy_evaluation : pyval) : RandRotate90 :=
  mkRandRotate90 prob do_transform R max_k spatial_axes 0
                 (Rotate90_init (PNum 0) spatial_axes lazy_evaluation).

Definition RandRotate90_randomize (self : RandRotate90) : RandRotate90 :=
  let '(do_transform, R) :=
    RandomizableTransform_randomize (RandRotate90_R self)
                                    (RandRotate90_prob self) in
  if negb do_transform
  then mkRandRotate90 (RandRotate90_prob self) do_transform R
                      (RandRotate90_max_k self) (RandRotate90_spatial_axes self)
                      (RandRotate90_k self) (RandRotate90_op self)
  else
    let '(drawn, R) := R_randint R (RandRotate90_max_k self) in
    mkRandRotate90 (RandRotate90_prob self) do_transform R
                   (RandRotate90_max_k self) (RandRotate90_spatial_axes self)
                   (drawn + 1) (RandRotate90_op self).

Definition RandRotate90_call (self : RandRotate90) (img : NdarrayOrTensor)
    (randomize shape_override : pyval) : RandRotate90 * Eff returned :=
  let self := if truthy randomize then RandRotate90_randomize self else self in
  let k := if RandRotate90_do_transform self then RandRotate90_k self else 0 in
  (self,
   Rotate90_call (RandRotate90_op self) img (PNum (Q2Qc (inject_Z k))) PNone
                 shape_override).

Record RandRotate : Type := mkRandRotate {
  RandRotate_prob : pyval;
  RandRotate_do_transform : bool;
  RandRotate_R : rng;
  RandRotate_range_x : Qc * Qc;
  RandRotate_range_y : Qc * Qc;
  RandRotate_range_z : Qc * Qc;
  RandRotate_x : Qc;
  RandRotate_y : Qc;
  RandRotate_z : Qc;
  RandRotate_op : Rotate
}.

Definition RandRotate_init (do_transform : bool) (R : rng)
    (range_x range_y range_z prob keep_size mode padding_mode align_corners
     dtype lazy_evaluation : pyval) : RandRotate :=
  mkRandRotate prob do_transform R
               (value_to_tuple_range range_x) (value_to_tuple_range range_y)
               (value_to_tuple_range range_z) 0%Qc 0%Qc 0%Qc
               (Rotate_init (PNum 0) keep_size mode padding_mode align_corners
                            dtype lazy_evaluation).

Definition RandRotate_randomize (self : RandRotate) : RandRotate :=
  let '(do_transform, R) :=
    RandomizableTransform_randomize (RandRotate_R self) (RandRotate_prob self) in
  if do_transform
  then
    let '(x, R) := R_uniform R (fst (RandRotate_range_x self))
                             (snd (RandRotate_range_x self)) in
    let '(y, R) := R_uniform R (fst (RandRotate_range_y self))
                             (snd (RandRotate_range_y self)) in
    let '(z, R) := R_uniform R (fst (RandRotate_range_z self))
                             (snd (RandRotate_range_z self)) in
    mkRandRotate (RandRotate_prob self) do_transform R
                 (RandRotate_range_x self) (RandRotate_range_y self)
                 (RandRotate_range_z self) x y z (RandRotate_op self)
  else
    mkRandRotate (RandRotate_prob self) do_transform R
                 (RandRotate_range_x self) (RandRotate_range_y self)
                 (RandRotate_range_z self) 0%Qc 0%Qc 0%Qc (RandRotate_op self).

Definition RandRotate_call (self : RandRotate) (img : NdarrayOrTensor)
    (mode padding_mode align_corners dtype randomize shape_override : pyval)
  : RandRotate * Eff returned :=
  let self := if truthy randomize then RandRotate_randomize self else self in
  let img_dims := img_dims_of img in
  let angle :=
    if RandRotate_do_transform self
    then if img_dims =? 2 then PNum (RandRotate_x self)
         else PSeq [RandRotate_x self; RandRotate_y self; RandRotate_z self]
    else if img_dims =? 2 then PNum 0 else PSeq [0%Qc; 0%Qc; 0%Qc] in
  (self,
   Rotate_call (RandRotate_op self) img angle mode padding_mode align_corners
               shape_override).

Record RandFlip : Type := mkRandFlip {
  RandFlip_prob : pyval;
  RandFlip_spatial_axis : pyval;
  RandFlip_op : Flip
}.

(** [self.op = Flip(0, spatial_axis)]: the axis lands in [Flip]'s second
    parameter. The class defines no [__call__]. *)
Definition RandFlip_init (prob spatial_axis : pyval) : RandFlip :=
  mkRandFlip prob spatial_axis (Flip_init (PNum 0) spatial_axis).

(** What a caller does to flush after a deferred call: [apply(img)] on the
    image it got back. *)
Definition then_apply (m : Eff returned) : Eff returned :=
  let! r := m in
  match r with
  | RImage img_t => apply img_t None
  | RNone => raise AttributeError
  end.

End atmostonce.

(** ** utility.py *)

(** The interface [CacheMechanism]: both methods may change the cache and
    may raise. [try_fetch] answers with the pair [(is_present, value)]. *)
Class CacheMechanism (C K V : Type) : Type := {
  try_fetch : C -> K -> outcome (bool * V) * C;
  store : C -> K -> V -> outcome unit * C
}.

Section CachedTransform.
Context {C K V Args : Type} `{CacheMechanism C K V}.

(** What a call can touch: the cache, and the record of the argument lists
    the wrapped transforms were invoked with. *)
Record cache_world : Type := mkWorld {
  world_cache : C;
  world_calls : list Args
}.

Record CachedTransform : Type := mkCachedTransform {
  CachedTransform_transforms : Args -> outcome V
}.

Definition cache_try_fetch (key : K) : M cache_world (bool * V) :=
  fun w => let '(r, c) := try_fetch (world_cache w) key in
           (r, mkWorld c (world_calls w)).

Definition cache_store (key : K) (value : V) : M cache_world unit :=
  fun w => let '(r, c) := store (world_cache w) key value in
           (r, mkWorld c (world_calls w)).

Definition run_transforms (self : CachedTransform) (args : Args)
  : M cache_world V :=
  fun w => (CachedTransform_transforms self args,
            mkWorld (world_cache w) (world_calls w ++ [args])).

Definition CachedTransform_call (self : CachedTransform) (key : K)
    (args : Args) : M cache_world V :=
  let! fetched := cache_try_fetch key in
  let '(is_present, value) := fetched in
  if is_present then ret value
  else
    let! result := run_transforms self args in
    let! _stored := cache_store key result in
    ret result.

End CachedTransform.

(** A dictionary as a cache: the simplest [CacheMechanism]. A miss answers
    with the given placeholder value. *)
Definition dict_cache (placeholder : Z) : CacheMechanism (gmap string Z) string Z := {|
  try_fetch c k := match c !! k with
                   | Some v => (Ok (true, v), c)
                   | None => (Ok (false, placeholder), c)
                   end;
  store c k v := (Ok tt, <[k := v]> c)
|}.

Section MultiSampleTransform.
Context {T : Type}.

(** The objects that flow through [MultiSampleTransform]: a tensor, a
    list, a generator (with the items it will yield), anything else. *)
#[local] Unset Elimination Schemes.
Inductive sample : Type :=
  | STensor (t : T)
  | SList (l : list sample)
  | SGen (l : list sample)
  | SOther (id : Z).
#[local] Set Elimination Schemes.

(** Iterating over a tensor yields its slices along the first axis. *)
Variable tensor_rows : T -> outcome (list T).

(** The items a [for] loop over the object visits. *)
Definition iter_items (s : sample) : outcome (list sample) :=
  match s with
  | STensor t => match tensor_rows t with
                 | Ok rows => Ok (map STensor rows)
                 | Raise e => Raise e
                 end
  | SList l => Ok l
  | SGen l => Ok l
  | SOther _ => Raise TypeError
  end.

(** Which of the two callables was invoked, and on what. *)
Inductive invocation : Type :=
  | CallMultiSample (arg : sample)
  | CallTransforms (arg : sample).

Record MultiSampleTransform : Type := mkMultiSampleTransform {
  MultiSampleTransform_multi_sample : sample -> outcome sample;
  MultiSampleTransform_transforms : sample -> outcome sample
}.

Definition call_multi_sample (self : MultiSampleTransform) (arg : sample)
  : M (list invocation) sample :=
  fun log => (MultiSampleTransform_multi_sample self arg,
              log ++ [CallMultiSample arg]).

Definition call_transforms (self : MultiSampleTransform) (arg : sample)
  : M (list invocation) sample :=
  fun log => (MultiSampleTransform_transforms self arg,
              log ++ [CallTransforms arg]).

Definition MultiSampleTransform_body (self : MultiSampleTransform)
    (output : list sample) (mt : sample) : M (list invocation) (list sample) :=
  let! mt_out := call_multi_sample self mt in
  match mt_out with
  | STensor _ => ret (output ++ [mt_out])
  | SList l => ret (output ++ l)
  | _ => raise ValueError
  end.

Definition MultiSampleTransform_call (self : MultiSampleTransform)
    (t : sample) : M (list invocation) (list sample) :=
  let output := [] in
  let! yielded := call_multi_sample self t in
  let! items := (fun log => (iter_items yielded, log)) in
  for_each (MultiSampleTransform_body self) items output.

(** The behaviour the specification words describe, for comparison with
    [MultiSampleTransform_call]: the downstream pipeline is applied to
    each yielded sub-sample and the results are gathered in yield order. *)
Definition multi_sample_spec_body (self : MultiSampleTransform)
    (output : list sample) (mt : sample) : M (list invocation) (list sample) :=
  let! mt_out := call_transforms self mt in
  match mt_out with
  | STensor _ => ret (output ++ [mt_out])
  | SList l => ret (output ++ l)
  | _ => raise ValueError
  end.

Definition multi_sample_spec (self : MultiSampleTransform) (t : sample)
  : M (list invocation) (list sample) :=
  let! yielded := call_multi_sample self t in
  let! items := (fun log => (iter_items yielded, log)) in
  for_each (multi_sample_spec_body self) items [].

End MultiSampleTransform.

(** ** A matrix factory over the rationals

    Modelled from the spec: [MatrixFactory] and the matrix product of
    [monai.utils.mapping_stack], which are not among the sources. The
    factory returns (d+1)x(d+1) homogeneous matrices; [translate] puts the
    offsets in the last column (the convention of the rotation matrices
    [[0,-1,0],[1,0,0],[0,0,1]] of the tests); [a @ b] is the matrix product,
    and [e @ m] for a one-dimensional [e] is the row vector times [m]. *)

Definition qmatrix : Type := list (list Qc).

Definition q_row (n i : nat) (last : Qc) : list Qc :=
  map (fun j => if bool_decide (j = i) then 1%Qc
                else if bool_decide (j = n) then last else 0%Qc) (seq 0 (S n)).

Definition q_identity (dim_count : Z) : qmatrix :=
  let n := Z.to_nat dim_count in
  map (fun i => q_row n i 0%Qc) (seq 0 (S n)).

Definition q_translate (dim_count : Z) (offsets : list Qc) : qmatrix :=
  let n := Z.to_nat dim_count in
  map (fun i => q_row n i (nth i offsets 0%Qc)) (seq 0 (S n)).

Definition q_sum (l : list Qc) : Qc := foldr Qcplus 0%Qc l.

Definition q_dot (u v : list Qc) : Qc :=
  q_sum (zip_with Qcmult u v).

Definition q_column (m : qmatrix) (j : nat) : list Qc :=
  map (fun row => nth j row 0%Qc) m.

Definition q_width (m : qmatrix) : nat :=
  match m with
  | [] => 0
  | row :: _ => length row
  end.

Definition q_vecmat (e : list Qc) (m : qmatrix) : list Qc :=
  map (fun j => q_dot e (q_column m j)) (seq 0 (q_width m)).

Definition q_matmul (a b : qmatrix) : qmatrix :=
  map (fun row => q_vecmat row b) a.

(** A resampler that hands the image back: enough to observe in the log
    which invocations take place. *)
Definition Affine_passthrough {Matrix Pix : Type} (m : Matrix)
    (kw : gmap string pyval) (img : @MetaTensor Matrix Pix)
  : outcome (@MetaTensor Matrix Pix) := Ok img.

(** The numbers of a list of corners, for comparison by computation. *)
Definition corner_values (l : list (list Qc)) : list (list Q) :=
  map (map this) l.

(** ** Concrete images, queues and collaborators for evaluation *)

Definition q_apply_body :=
  @apply_body qmatrix unit q_matmul q_vecmat Affine_passthrough.
Definition q_apply_init :=
  @apply_init qmatrix unit q_identity q_translate q_matmul q_vecmat.
Definition q_apply :=
  @apply qmatrix unit q_identity q_translate q_matmul q_vecmat Affine_passthrough.

(** A 2x2 single-channel image with one pending entry whose increment is
    the identity. *)
Definition identity_entry : @MetaMatrix qmatrix := mkMetaMatrix (q_identity 2) ∅.
Definition small_image : @MetaTensor qmatrix unit :=
  mkMetaTensor [1; 2; 2] tt [identity_entry].

(** The corners of the image itself, as the loop's [e]. *)
Definition original_corners {Matrix Pix} (img : @MetaTensor Matrix Pix)
  : list (list Qc) :=
  map (map (fun c => Q2Qc (inject_Z c))) (extents_from_shape (shape img)).

(** The same image with two entries that ask for different interpolation
    modes: one incompatibility boundary. *)
Definition bilinear_entry : @MetaMatrix qmatrix :=
  mkMetaMatrix (q_identity 2) {[ "mode"%string := PStr "bilinear" ]}.
Definition nearest_entry : @MetaMatrix qmatrix :=
  mkMetaMatrix (q_translate 2 [1%Qc; 0%Qc]) {[ "mode"%string := PStr "nearest" ]}.
Definition two_mode_image : @MetaTensor qmatrix unit :=
  mkMetaTensor [1; 2; 2] tt [bilinear_entry; nearest_entry].

(** The locals of the loop as they would stand had the first entry's mode
    been accumulated. *)
Definition bilinear_accumulated : @apply_locals qmatrix unit :=
  let st := q_apply_init two_mode_image in
  mkLocals (cur_data st) (cumulative_matrix st) (cumulative_extents st)
           (PStr "bilinear") PNone PNone PNone None.

(** A transform that doubles its argument, in front of a dictionary that
    already holds key "a". *)
Definition doubling : @CachedTransform Z Z :=
  mkCachedTransform (fun n => Ok (2 * n)).

Definition warm_world : @cache_world (gmap string Z) Z :=
  mkWorld {[ "a"%string := 7 ]} [].

(** A sampler that splits tensor 0 into tensors 1 and 2 and maps any other
    tensor n to tensor n+10, and a pipeline that maps tensor n to tensor
    n+100. *)
Definition splitting_sampler (s : @sample Z) : outcome (@sample Z) :=
  match s with
  | STensor 0 => Ok (SList [STensor 1; STensor 2])
  | STensor n => Ok (STensor (n + 10))
  | other => Ok other
  end.

Definition adding_pipeline (s : @sample Z) : outcome (@sample Z) :=
  match s with
  | STensor n => Ok (STensor (n + 100))
  | other => Ok other
  end.

(** A sampler written as a generator function: every call hands back a
    generator object. *)
Definition generator_sampler (s : @sample Z) : outcome (@sample Z) :=
  Ok (SGen [STensor 1; STensor 2]).

Definition scalar_tensor (t : Z) : outcome (list Z) := Raise TypeError.

(** ** apply.py: [shape_from_extents]

    The corners arrive as the rows of a two-dimensional array of reals,
    whichever of the accepted containers holds them. Rows of different
    lengths cannot be stacked: which exception that is depends on the
    container, so it is recorded as an external error. *)

Definition qc_min (a b : Qc) : Qc := if Qle_bool a b then a else b.
Definition qc_max (a b : Qc) : Qc := if Qle_bool a b then b else a.

(** Column [j] of the stacked corners. *)
Definition column_of (rows : list (list Qc)) (j : nat) : list Qc :=
  map (fun row => nth j row 0%Qc) rows.

(** The reduction of one column: [t.min(axis=0)[0]] or [t.max(axis=0)[0]]
    at that column. *)
Definition reduce_column (f : Qc -> Qc -> Qc) (column : list Qc) : Qc :=
  match column with
  | [] => 0%Qc
  | x :: xs => fold_left f xs x
  end.

Section shape_from_extents.
(** [.type(torch.IntTensor)] on a whole number: the number itself when it
    fits 32 bits; what it yields otherwise is left to the backend. *)
Variable IntTensor_cast : Z -> Z.

Definition shape_from_extents (src_shape : list Z) (extents : list (list Qc))
  : outcome (list Z) :=
  match extents with
  | [] => Raise (ExternalError "IndexError")
  | first :: rest =>
    if forallb (fun row => Nat.eqb (length row) (length first)) rest then
      let aextents := extents in
      let width := length first in
      let mins :=
        map (fun j => reduce_column qc_min (column_of aextents j)) (seq 0 width) in
      let maxes :=
        map (fun j => reduce_column qc_max (column_of aextents j)) (seq 0 width) in
      let values :=
        removelast
          (map (fun mm => IntTensor_cast (Qceiling (this (fst mm - snd mm)%Qc)))
               (zip maxes mins)) in
      match src_shape with
      | [] => Raise (ExternalError "IndexError")
      | leading :: _ => Ok (leading :: values)
      end
    else Raise (ExternalError "cannot stack")
  end.

End shape_from_extents.

(** A cast that keeps 32-bit numbers and wraps the others. *)
Definition wrap_int32 (n : Z) : Z := (n + 2 ^ 31) mod 2 ^ 32 - 2 ^ 31.

(** ** Concrete collaborators for the wrappers *)

(** A builder that hands back a 2x2 image with an empty queue, the identity
    as increment and the interpolation mode it was given as metadata. *)
Definition q_builder8 (img : @NdarrayOrTensor qmatrix unit)
    (a1 a2 a3 a4 a5 a6 a7 : pyval) : outcome (@built qmatrix unit) :=
  Ok (mkMetaTensor [1; 2; 2] tt [], q_identity 2, {[ "mode"%string := a2 ]}).

(** A transform that rejects every argument. *)
Definition rejecting : @CachedTransform Z Z :=
  mkCachedTransform (fun _ => Raise ValueError).


(** The items one result of the sampler contributes to the output of
    [MultiSampleTransform]: a tensor itself, a list its elements. *)
Definition gathered {T : Type} (out : @sample T) : option (list (@sample T)) :=
  match out with
  | STensor _ => Some [out]
  | SList l => Some l
  | _ => None
  end.

(** * Properties *)

(** ** The corner enumeration *)

Lemma flat_map_cons_length {A} (p : list A) (rest : list (list A)) :
  length (flat_map (fun x => map (cons x) rest) p)
  = (length p * length rest)%nat.
Proof.
  induction p as [|x p IH]; simpl; [reflexivity|].
  rewrite length_app, length_map, IH. reflexivity.
Qed.

Lemma product_two_way_length {A} (f : A -> list A) (dims : list A) :
  (forall d, length (f d) = 2%nat) ->
  length (product (map f dims)) = (2 ^ length dims)%nat.
Proof.
  intros Hf. induction dims as [|d dims IH]; simpl; [reflexivity|].
  rewrite flat_map_cons_length, Hf, IH. lia.
Qed.

Lemma in_product {A} (pools : list (list A)) (e : list A) :
  In e (product pools) <-> Forall2 (fun x p => In x p) e pools.
Proof.
  revert e. induction pools as [|p pools IH]; intros e; simpl.
  - split.
    + intros [<-|[]]. constructor.
    + intros Hall. inversion Hall. now left.
  - rewrite in_flat_map. split.
    + intros (x & Hx & Hin). apply in_map_iff in Hin as (e' & <- & He').
      constructor; [assumption|]. now apply IH.
    + intros Hall. inversion Hall as [|x p' e' pools' Hx Hrest]; subst.
      exists x. split; [assumption|].
      apply in_map_iff. exists e'. split; [reflexivity|]. now apply IH.
Qed.

Lemma Forall2_corner_pools (c dims : list Z) :
  Forall2 (fun x p => In x p) c (map (fun d => [0; d]) dims)
  <-> Forall2 (fun x d => x = 0 \/ x = d) c dims.
Proof.
  revert c. induction dims as [|d dims IH]; intros c; simpl.
  - split; intros Hall; inversion Hall; constructor.
  - split; intros Hall; inversion Hall as [|x p c' ps Hx Hrest]; subst;
      constructor; try (now apply IH).
    + simpl in Hx. destruct Hx as [<-|[<-|[]]]; auto.
    + simpl. destruct Hx as [->| ->]; auto.
Qed.

(** C9. For a shape of length d+1, [extents_from_shape] returns 2^d
    corners; the corners are exactly the lists that choose, for every axis
    after the leading one, either 0 or the size of that axis, followed by a
    final 1; and [extents_from_shape [1;24;32]] is
    [(0,0,1); (0,32,1); (24,0,1); (24,32,1)]. *)
Theorem extents_from_shape_corners (shape : list Z) (d : nat) :
  length shape = S d ->
  length (extents_from_shape shape) = (2 ^ d)%nat
  /\ (forall e, In e (extents_from_shape shape) <->
                exists c, e = c ++ [1]
                          /\ length c = d
                          /\ Forall2 (fun x s => x = 0 \/ x = s) c (drop 1 shape))
  /\ extents_from_shape [1; 24; 32]
     = [[0; 0; 1]; [0; 32; 1]; [24; 0; 1]; [24; 32; 1]].
Proof.
  intros Hlen. destruct shape as [|channel dims]; [discriminate|].
  simpl in Hlen. injection Hlen as Hd.
  unfold extents_from_shape.
  change (drop 1 (channel :: dims)) with dims. split; [|split].
  - rewrite length_map, product_two_way_length by reflexivity. now rewrite Hd.
  - intros e. rewrite in_map_iff. split.
    + intros (c & <- & Hc). exists c. apply in_product in Hc.
      apply Forall2_corner_pools in Hc. split; [reflexivity|]. split; [|assumption].
      apply Forall2_length in Hc. lia.
    + intros (c & -> & _ & Hc). exists c. split; [reflexivity|].
      apply in_product. now apply Forall2_corner_pools.
  - reflexivity.
Qed.

Lemma extents_from_shape_corners_witness :
  length (extents_from_shape [1; 24; 32]) = (2 ^ 2)%nat
  /\ (forall e, In e (extents_from_shape [1; 24; 32]) <->
                exists c, e = c ++ [1]
                          /\ length c = 2%nat
                          /\ Forall2 (fun x s => x = 0 \/ x = s) c (drop 1 [1; 24; 32]))
  /\ extents_from_shape [1; 24; 32]
     = [[0; 0; 1]; [0; 32; 1]; [24; 0; 1]; [24; 32; 1]].
Proof. apply (extents_from_shape_corners [1; 24; 32] 2). reflexivity. Defined.

(** ** The engine: what [apply] does on every input *)

Section apply_facts.
Context {Matrix Pix : Type}.
Variable mf_identity : Z -> Matrix.
Variable mf_translate : Z -> list Qc -> Matrix.
Variable matmul : Matrix -> Matrix -> Matrix.
Variable vecmat : list Qc -> Matrix -> list Qc.
Variable Affine : Matrix -> gmap string pyval -> @MetaTensor Matrix Pix ->
                  outcome (@MetaTensor Matrix Pix).

Local Abbreviation body := (apply_body matmul vecmat Affine).
Local Abbreviation init := (apply_init mf_identity mf_translate matmul vecmat).
Local Abbreviation apply' := (apply mf_identity mf_translate matmul vecmat Affine).

Lemma apply_init_nothing_accumulated (data : @MetaTensor Matrix Pix) :
  nothing_accumulated (init data).
Proof.
  unfold nothing_accumulated, apply_init.
  destruct (starting_matrix_and_extents _ _ _ _ _ _); simpl. tauto.
Qed.

Lemma apply_init_data (data : @MetaTensor Matrix Pix) :
  cur_data (init data) = data.
Proof.
  unfold apply_init.
  destruct (starting_matrix_and_extents _ _ _ _ _ _); reflexivity.
Qed.

(** With nothing accumulated every entry passes the compatibility test,
    whatever its metadata: the body only composes the matrix and the
    extents. *)
Lemma apply_body_nothing_accumulated st mm log :
  nothing_accumulated st ->
  body st mm log
  = (Ok (mkLocals (cur_data st)
                  (matmul (matrix mm) (cumulative_matrix st))
                  (map (fun e => vecmat e (matmul (matrix mm) (cumulative_matrix st)))
                       (cumulative_extents st))
                  PNone PNone PNone PNone None), log).
Proof.
  intros (Hm & Hp & Hd & Ht & Hk). unfold apply_body.
  rewrite Hm, Hp, Hd, Ht, Hk. reflexivity.
Qed.

Lemma for_each_apply_body_nothing_accumulated queue st log :
  nothing_accumulated st ->
  exists st', for_each body queue st log = (Ok st', log)
              /\ nothing_accumulated st'
              /\ cur_data st' = cur_data st.
Proof.
  revert st. induction queue as [|mm queue IH]; intros st Hst; simpl.
  - exists st. repeat split; apply Hst.
  - unfold bind. rewrite apply_body_nothing_accumulated by assumption.
    edestruct IH as (st' & Hrun & Hst' & Hdata); [|exists st'; eauto].
    unfold nothing_accumulated; simpl; tauto.
Qed.

(** The one case in which [apply] returns: an explicit empty [pending]. *)
Lemma apply_empty_pending_returns_input (data : @MetaTensor Matrix Pix) log :
  apply' data (Some []) log = (Ok (RImage data), log).
Proof. reflexivity. Qed.

(** C1. However [apply] is called on an image with pending entries, the
    resampler is invoked zero times, where the specification counts k+1
    invocations. With [pending] left at its default the call raises
    [TypeError] at once; with any non-empty [pending] no boundary is ever
    detected, the final materialization does not take place and the call
    ends in [UnboundLocalError]. In both cases the log of resampler
    invocations is left as it was. *)
Theorem apply_never_resamples
    (data : MetaTensor) (entry : MetaMatrix) (pending : list MetaMatrix)
    (log : list resample_call) :
  apply' data None log = (Raise TypeError, log)
  /\ apply' data (Some (entry :: pending)) log = (Raise UnboundLocalError, log).
Proof.
  split; [reflexivity|].
  unfold apply. rewrite bool_decide_false by discriminate. unfold bind.
  destruct (for_each_apply_body_nothing_accumulated
              (pending_transforms data) (init data) log
              (apply_init_nothing_accumulated data))
    as (st' & -> & (_ & _ & _ & _ & Hk) & _).
  rewrite Hk. reflexivity.
Qed.

(** C5. Called the way every caller in the sources calls it, with
    [pending] left at its default, [apply] raises [TypeError] on an image
    whose queue is empty instead of returning the image; the resampler is
    not invoked. *)
Theorem apply_empty_queue_default_pending_raises
    (shape : list Z) (pixels : Pix) (log : list resample_call) :
  apply' (mkMetaTensor shape pixels []) None log = (Raise TypeError, log).
Proof. reflexivity. Qed.

(** C6. The per-field test accepts exactly when either side is unset or
    both values are equal; but the loop never fills an accumulated field:
    after any entry processed from the initial state, whatever metadata
    the entry carries, all four accumulated fields are still unset. *)
Theorem compatible_entry_fills_no_field
    (data : MetaTensor) (entry : MetaMatrix) (log : list resample_call) :
  (forall v1 v2, metadata_is_compatible v1 v2 = true
                 <-> v1 = PNone \/ v2 = PNone \/ v1 = v2)
  /\ exists st', body (init data) entry log = (Ok st', log)
                 /\ cur_mode st' = PNone
                 /\ cur_padding_mode st' = PNone
                 /\ cur_device st' = PNone
                 /\ cur_dtype st' = PNone.
Proof.
  split.
  - intros v1 v2. unfold metadata_is_compatible.
    destruct v1, v2; rewrite ?bool_decide_eq_true; intuition congruence.
  - eexists. rewrite apply_body_nothing_accumulated
      by apply apply_init_nothing_accumulated.
    split; [reflexivity|]. simpl. tauto.
Qed.

End apply_facts.

(** ** The engine on concrete queues, over the rational matrix factory *)

(** C2. On a 2x2 image with one identity entry the loop leaves the extents
    (0,0,1) (0,2,5) (2,0,5) (2,2,9), while the original corners under the
    cumulative matrix are (0,0,1) (0,2,3) (2,0,3) (2,2,5): the body
    transforms the previous extents, which already carry the centring
    translation, by the whole cumulative matrix once more. *)
Theorem extents_are_not_recomputed_from_original_corners :
  exists st',
    for_each q_apply_body (pending_transforms small_image)
             (q_apply_init small_image) [] = (Ok st', [])
    /\ corner_values (cumulative_extents st')
       = [[0; 0; 1]; [0; 2; 5]; [2; 0; 5]; [2; 2; 9]]%Q
    /\ corner_values (map (fun e => q_vecmat e (cumulative_matrix st'))
                          (original_corners small_image))
       = [[0; 0; 1]; [0; 2; 3]; [2; 0; 3]; [2; 2; 5]]%Q
    /\ cumulative_extents st'
       <> map (fun e => q_vecmat e (cumulative_matrix st'))
              (original_corners small_image).
Proof.
  eexists. split; [reflexivity|]. split; [reflexivity|]. split; [reflexivity|].
  intros Heq. apply (f_equal corner_values) in Heq.
  vm_compute in Heq. discriminate.
Qed.

(** C3. (a) On a queue whose second entry asks for a mode other than the
    first, [apply] never reaches a flush: the resampler log stays empty and
    the call ends in [UnboundLocalError]. (b) Where the incompatible branch
    of the body is entered, from locals in which "bilinear" is accumulated,
    the resampler receives the cumulative matrix with the entry's increment
    already composed in, not the matrix accumulated before the entry; the
    cumulative matrix is kept rather than reset to the centred identity;
    the extents are the composed ones rather than those of the new image;
    only the adoption of the entry's metadata happens as specified. *)
Theorem incompatible_entry_is_not_flushed_as_specified :
  q_apply two_mode_image (Some (pending_transforms two_mode_image)) []
  = (Raise UnboundLocalError, [])
  /\ exists st' call,
       q_apply_body bilinear_accumulated nearest_entry [] = (Ok st', [call])
       /\ call_kwargs call !! "mode"%string = Some (PStr "bilinear")
       /\ corner_values (call_affine call)
          = corner_values (q_matmul (matrix nearest_entry)
                                    (cumulative_matrix bilinear_accumulated))
       /\ corner_values (call_affine call)
          <> corner_values (cumulative_matrix bilinear_accumulated)
       /\ corner_values (cumulative_matrix st')
          = corner_values (call_affine call)
       /\ corner_values (cumulative_matrix st')
          <> corner_values (cumulative_matrix (q_apply_init (cur_data st')))
       /\ corner_values (cumulative_extents st')
          <> corner_values (cumulative_extents (q_apply_init (cur_data st')))
       /\ cur_mode st' = PStr "nearest".
Proof.
  split; [reflexivity|].
  pose (composed := q_matmul (matrix nearest_entry)
                             (cumulative_matrix bilinear_accumulated)).
  pose (kw := prepare_args_dict_for_apply (PStr "bilinear") PNone PNone PNone).
  exists (mkLocals (cur_data bilinear_accumulated) composed
                   (map (fun e => q_vecmat e composed)
                        (cumulative_extents bilinear_accumulated))
                   (PStr "nearest") PNone PNone PNone (Some kw)),
         (mkCall composed kw (cur_data bilinear_accumulated)).
  split; [reflexivity|].
  split; [reflexivity|]. split; [reflexivity|].
  split; [vm_compute; discriminate|]. split; [reflexivity|].
  split; [vm_compute; discriminate|]. split; [vm_compute; discriminate|].
  reflexivity.
Qed.

(** ** The wrappers: eager evaluation *)

Section wrapper_facts.
Context {Matrix Pix : Type}.
Variable mf_identity : Z -> Matrix.
Variable mf_translate : Z -> list Qc -> Matrix.
Variable matmul : Matrix -> Matrix -> Matrix.
Variable vecmat : list Qc -> Matrix -> list Qc.
Variable Affine : Matrix -> gmap string pyval -> @MetaTensor Matrix Pix ->
                  outcome (@MetaTensor Matrix Pix).
Variable rotate : @NdarrayOrTensor Matrix Pix -> pyval -> pyval -> pyval ->
                  pyval -> pyval -> pyval -> pyval ->
                  outcome (@built Matrix Pix).

Local Abbreviation apply' :=
  (apply mf_identity mf_translate matmul vecmat Affine).
Local Abbreviation then_apply :=
  (then_apply mf_identity mf_translate matmul vecmat Affine).
Local Abbreviation tail :=
  (push_then_apply mf_identity mf_translate matmul vecmat Affine).
Context {rng : Type}.
Variable R_uniform : rng -> Qc -> Qc -> Qc * rng.
Variable RandomizableTransform_randomize : rng -> pyval -> bool * rng.

Local Abbreviation Rotate_call' :=
  (Rotate_call mf_identity mf_translate matmul vecmat Affine rotate).
Local Abbreviation RandRotate_call' :=
  (RandRotate_call mf_identity mf_translate matmul vecmat Affine rotate
                   R_uniform RandomizableTransform_randomize).

(** Configured for eager evaluation, the closing block of every wrapper
    raises: [apply(img_t)] leaves [pending] at [None]. *)
Lemma push_then_apply_eager_raises lazy_evaluation r log :
  truthy lazy_evaluation = false ->
  tail lazy_evaluation r log = (Raise TypeError, log).
Proof.
  intros Hlazy. unfold push_then_apply. destruct r as [[img_t tr] md].
  rewrite Hlazy. reflexivity.
Qed.

Lemma push_then_apply_deferred_returns lazy_evaluation img_t tr md log :
  truthy lazy_evaluation = true ->
  tail lazy_evaluation (img_t, tr, md) log
  = (Ok (RImage (push_pending_transform img_t (mkMetaMatrix tr md))), log).
Proof. intros Hlazy. unfold push_then_apply. rewrite Hlazy. reflexivity. Qed.

(** The two routes coincide as computations: the eager closing block is
    the deferred one followed by [apply]. *)
Lemma push_then_apply_eager_is_deferred_then_apply eager deferred r log :
  truthy eager = false -> truthy deferred = true ->
  tail eager r log = then_apply (tail deferred r) log.
Proof.
  intros He Hd. destruct r as [[img_t tr] md].
  unfold then_apply, bind.
  rewrite (push_then_apply_deferred_returns deferred img_t tr md log Hd).
  unfold push_then_apply. rewrite He. reflexivity.
Qed.

(** X17. For [Rotate], the eager call and the deferred call followed by
    [apply] on the returned image are the same computation: same result or
    exception, same log of resampler invocations. *)
Lemma Rotate_eager_is_deferred_then_apply
    angle keep_size mode padding_mode align_corners dtype eager deferred
    img angle' mode' padding_mode' align_corners' shape_override log :
  truthy eager = false -> truthy deferred = true ->
  Rotate_call' (mkRotate angle keep_size mode padding_mode align_corners
                         dtype eager)
               img angle' mode' padding_mode' align_corners' shape_override log
  = then_apply
      (Rotate_call' (mkRotate angle keep_size mode padding_mode align_corners
                              dtype deferred)
                    img angle' mode' padding_mode' align_corners'
                    shape_override) log.
Proof.
  intros He Hd. unfold Rotate_call, Rotate_resolve. simpl.
  unfold then_apply, bind, lift.
  destruct (rotate _ _ _ _ _ _ _ _) as [r|e]; [|reflexivity].
  pose proof (push_then_apply_eager_is_deferred_then_apply
                eager deferred r log He Hd) as Htail.
  unfold then_apply, bind in Htail. exact Htail.
Qed.

(** X18. [RandRotate] hands the angle it drew to its [Rotate] at call
    time; since [Rotate] ignores a call-time angle, the drawn angle never
    reaches the builder: the call does what a call of the stored [Rotate]
    without an angle does. *)
Lemma RandRotate_call_drops_the_drawn_angle
    (self : @RandRotate rng) (img : NdarrayOrTensor)
    (mode padding_mode align_corners dtype randomize shape_override : pyval) :
  snd (RandRotate_call' self img mode padding_mode align_corners dtype
                        randomize shape_override)
  = Rotate_call' (RandRotate_op self) img PNone mode padding_mode
                 align_corners shape_override.
Proof.
  unfold RandRotate_call, RandRotate_randomize. simpl.
  destruct (truthy randomize); [|reflexivity].
  destruct (RandomizableTransform_randomize _ _) as [[|] R]; [|reflexivity].
  repeat match goal with
         | |- context [R_uniform ?r ?a ?b] => destruct (R_uniform r a b)
         end.
  reflexivity.
Qed.

(** C4. A [Rotate] constructed with [lazy_evaluation=False] never returns
    an output: on every image and for every call-time argument the call
    ends in an exception, the builder's own or, when the builder
    succeeds, the [TypeError] of [apply(img_t)]; the resampler is not
    invoked. *)
Theorem Rotate_eager_call_never_returns
    (angle keep_size mode padding_mode align_corners dtype : pyval)
    (img : NdarrayOrTensor)
    (angle' mode' padding_mode' align_corners' shape_override : pyval)
    (log : list resample_call) :
  Rotate_call' (mkRotate angle keep_size mode padding_mode align_corners
                         dtype (PBool false))
               img angle' mode' padding_mode' align_corners' shape_override
               log
  = (match rotate img angle keep_size (py_or mode' mode)
                  (py_or padding_mode' padding_mode)
                  (py_or align_corners' align_corners) dtype
                  (resolve_shape_override img shape_override) with
     | Ok _ => Raise TypeError
     | Raise e => Raise e
     end, log).
Proof.
  unfold Rotate_call, Rotate_resolve. simpl. unfold bind, lift.
  destruct (rotate _ _ _ _ _ _ _ _) as [r|e]; [|reflexivity].
  now apply push_then_apply_eager_raises.
Qed.

End wrapper_facts.

(** ** The wrappers: effective parameters *)

(** [Zoom] resolves its parameters with [is None] tests: a supplied value
    wins, the stored default is used otherwise. *)
Lemma Zoom_resolve_overrides (self : Zoom) (factor mode padding_mode align_corners : pyval) :
  Zoom_resolve self factor mode padding_mode align_corners
  = (if bool_decide (factor = PNone) then Zoom_factor self else factor,
     if bool_decide (mode = PNone) then Zoom_mode self else mode,
     if bool_decide (padding_mode = PNone) then Zoom_padding_mode self
     else padding_mode,
     if bool_decide (align_corners = PNone) then Zoom_align_corners self
     else align_corners,
     Zoom_keep_size self, Zoom_dtype self).
Proof. reflexivity. Qed.

(** The effective angle of [Rotate] is the stored one, whatever is passed. *)
Lemma Rotate_resolve_ignores_angle (self : Rotate) (a1 a2 mode padding_mode align_corners : pyval) :
  Rotate_resolve self a1 mode padding_mode align_corners
  = Rotate_resolve self a2 mode padding_mode align_corners.
Proof. reflexivity. Qed.

(** C7. The wrappers do not resolve their parameters as specified.
    [Rotate] constructed with angle 0 and called with angle 1 rotates by 0.
    [Flip] constructed with axis 1 and called without an axis flips along
    no axis and has lost its stored axis afterwards.
    [Translate] constructed with mode "area" and called with mode
    "bilinear" uses "area"; [CropPad] constructed with slices and called
    with others uses the constructed ones.
    [Spacing] constructed with [align_corners=True] and called with
    [align_corners=False] uses [True]. *)
Theorem call_time_values_do_not_override_defaults :
  Rotate_resolve
    (Rotate_init (PNum 0) (PBool true) (PStr "bilinear") (PStr "border")
                 (PBool false) (PObj 32) (PBool true))
    (PNum 1) PNone PNone PNone
  = (PNum 0, PStr "bilinear", PStr "border", PBool false, PBool true, PObj 32)
  /\ Flip_resolve (Flip_init (PNum 1) (PBool true)) PNone
     = (mkFlip PNone (PBool true), PNone)
  /\ Translate_resolve
       (mkTranslate (PSeq [1%Qc; 0%Qc]) (PStr "area") (PStr "edge") (PObj 32)
                    (PBool true))
       (PStr "bilinear") PNone
     = (PStr "area", PStr "edge", PObj 32)
  /\ CropPad_resolve (CropPad_init (PObj 1) (PStr "border") (PBool true)) (PObj 2)
     = PObj 1
  /\ Spacing_resolve
       (Spacing_init (PNum 1) (PNum 1) (PBool false) (PStr "bilinear")
                     (PStr "border") (PBool true) (PObj 64) (PBool false) PNone)
       PNone PNone (PBool false) PNone
     = (PStr "bilinear", PStr "border", PBool true, PObj 64).
Proof. repeat split. Qed.

(** ** The cache wrapper *)

Section CachedTransform_facts.
Context {C K V Args : Type} `{CacheMechanism C K V}.

(** C10. When [try_fetch] reports the entry present, the call returns
    the fetched value and the wrapped transforms are not invoked. When it
    reports the entry absent, the transforms are invoked exactly once,
    with the given arguments; their result is stored under the key and
    is the value returned. *)
Theorem CachedTransform_call_hit_or_miss
    (self : @CachedTransform V Args) (key : K) (args : Args)
    (w : @cache_world C Args) (value : V) (c' : C) :
  (try_fetch (world_cache w) key = (Ok (true, value), c') ->
   CachedTransform_call self key args w
   = (Ok value, mkWorld c' (world_calls w)))
  /\ (forall result c'',
        try_fetch (world_cache w) key = (Ok (false, value), c') ->
        CachedTransform_transforms self args = Ok result ->
        store c' key result = (Ok tt, c'') ->
        CachedTransform_call self key args w
        = (Ok result, mkWorld c'' (world_calls w ++ [args]))).
Proof.
  split.
  - intros Hfetch. unfold CachedTransform_call, bind, cache_try_fetch.
    rewrite Hfetch. reflexivity.
  - intros result c'' Hfetch Hrun Hstore.
    unfold CachedTransform_call, bind, cache_try_fetch.
    rewrite Hfetch. unfold run_transforms, cache_store. simpl.
    rewrite Hrun, Hstore. reflexivity.
Qed.

End CachedTransform_facts.

Lemma CachedTransform_call_hit_or_miss_witness :
  @CachedTransform_call _ _ _ _ (dict_cache 0) doubling "a" 5 warm_world
  = (Ok 7, warm_world)
  /\ @CachedTransform_call _ _ _ _ (dict_cache 0) doubling "b" 5 warm_world
     = (Ok 10, mkWorld (<["b"%string := 10]> {[ "a"%string := 7 ]}) [5]).
Proof.
  split.
  - apply (@CachedTransform_call_hit_or_miss _ _ _ _ (dict_cache 0)
             doubling "a"%string 5 warm_world 7 {[ "a"%string := 7 ]}).
    reflexivity.
  - apply (@CachedTransform_call_hit_or_miss _ _ _ _ (dict_cache 0)
             doubling "b"%string 5 warm_world 0 {[ "a"%string := 7 ]});
      reflexivity.
Defined.

(** ** The multi-sample wrapper *)

(** The wrapped pipeline plays no part in the result. *)
Lemma MultiSampleTransform_call_ignores_transforms {T : Type}
    (rows : T -> outcome (list T)) (multi_sample tr1 tr2 : sample -> outcome sample)
    (t : sample) :
  MultiSampleTransform_call rows (mkMultiSampleTransform multi_sample tr1) t
  = MultiSampleTransform_call rows (mkMultiSampleTransform multi_sample tr2) t.
Proof. reflexivity. Qed.

(** C8. The loop applies the sampler again, not the pipeline, to every
    sub-sample. With the splitting sampler the call returns tensors 11 and
    12 and the pipeline is never invoked, where applying the pipeline to
    each sub-sample in yield order gives tensors 101 and 102; with a
    generator sampler the call raises [ValueError] at the first
    sub-sample. *)
Theorem MultiSampleTransform_call_skips_the_pipeline :
  MultiSampleTransform_call scalar_tensor
    (mkMultiSampleTransform splitting_sampler adding_pipeline) (STensor 0) []
  = (Ok [STensor 11; STensor 12],
     [CallMultiSample (STensor 0); CallMultiSample (STensor 1);
      CallMultiSample (STensor 2)])
  /\ multi_sample_spec scalar_tensor
       (mkMultiSampleTransform splitting_sampler adding_pipeline) (STensor 0) []
     = (Ok [STensor 101; STensor 102],
        [CallMultiSample (STensor 0); CallTransforms (STensor 1);
         CallTransforms (STensor 2)])
  /\ MultiSampleTransform_call scalar_tensor
       (mkMultiSampleTransform generator_sampler adding_pipeline) (STensor 0) []
     = (Raise ValueError,
        [CallMultiSample (STensor 0); CallMultiSample (STensor 1)]).
Proof. repeat split. Qed.

(** * Further properties of the code *)

(** ** apply.py: compatibility and resampler arguments *)

(** X1. The per-field compatibility test is reflexive and symmetric but not
    transitive: an unset value is compatible with two values that are not
    compatible with each other. *)
Theorem metadata_is_compatible_refl_sym_not_trans :
  (forall v, metadata_is_compatible v v = true)
  /\ (forall v1 v2, metadata_is_compatible v1 v2 = metadata_is_compatible v2 v1)
  /\ (exists a b c, metadata_is_compatible a b = true
                    /\ metadata_is_compatible b c = true
                    /\ metadata_is_compatible a c = false).
Proof.
  split; [|split].
  - intros v. unfold metadata_is_compatible.
    destruct v; try reflexivity; now apply bool_decide_eq_true.
  - intros v1 v2. unfold metadata_is_compatible.
    destruct v1, v2; try reflexivity;
      apply bool_decide_ext; split; intros Heq; now symmetry.
  - exists (PStr "bilinear"), PNone, (PStr "nearest"). repeat split.
Qed.

(** X2. The keyword arguments prepared for the resampler hold exactly the
    accumulated fields that are set, each under its own name: a key is
    present with value [v] if and only if [v] is not [None] and is the
    accumulated value of that key. In particular no [None] is ever passed
    and no other key appears. *)
Theorem prepare_args_dict_for_apply_lookup
    (cur_mode cur_padding_mode cur_device cur_dtype : pyval)
    (k : string) (v : pyval) :
  prepare_args_dict_for_apply cur_mode cur_padding_mode cur_device cur_dtype
    !! k = Some v
  <-> v <> PNone
      /\ ((k = "mode"%string /\ v = cur_mode)
          \/ (k = "padding_mode"%string /\ v = cur_padding_mode)
          \/ (k = "device"%string /\ v = cur_device)
          \/ (k = "dtype"%string /\ v = cur_dtype)).
Proof.
  unfold prepare_args_dict_for_apply.
  split.
  - intros Hlook.
    repeat case_bool_decide;
      repeat (rewrite lookup_insert in Hlook; case_decide);
      rewrite ?lookup_empty in Hlook; simplify_eq; split; auto 10.
  - intros (Hv & Hcases).
    destruct Hcases as [(-> & ->)|[(-> & ->)|[(-> & ->)|(-> & ->)]]];
      repeat case_bool_decide; try contradiction;
      repeat (rewrite lookup_insert; case_decide; try discriminate);
      try reflexivity; try congruence.
Qed.

(** ** apply.py: the corners are distinct *)

Lemma NoDup_product {A} (pools : list (list A)) :
  Forall NoDup pools -> NoDup (product pools).
Proof.
  induction 1 as [|p pools Hp Hpools IH]; simpl.
  - apply NoDup_singleton.
  - clear Hpools. induction Hp as [|x p Hx Hp IHp]; simpl; [constructor|].
    apply NoDup_app. split; [|split].
    + apply NoDup_fmap_2; [|assumption].
      intros a b Hab. now injection Hab.
    + intros e He1 He2.
      apply list_elem_of_In, in_map_iff in He1 as (e1 & <- & _).
      apply list_elem_of_In, in_flat_map in He2 as (y & Hy & He2).
      apply in_map_iff in He2 as (e2 & Heq & _).
      injection Heq as -> _. apply Hx. now apply list_elem_of_In.
    + apply IHp.
Qed.

(** X3. When no axis after the leading one has size 0, the corners that
    [extents_from_shape] returns are pairwise distinct. *)
Theorem extents_from_shape_NoDup (shape : list Z) :
  Forall (fun d => d <> 0) (drop 1 shape) ->
  NoDup (extents_from_shape shape).
Proof.
  intros Hdims. unfold extents_from_shape.
  apply NoDup_fmap_2.
  - intros a b Hab. now apply app_inv_tail in Hab.
  - apply NoDup_product. apply Forall_fmap.
    eapply Forall_impl; [exact Hdims|].
    intros d Hd. simpl. apply NoDup_cons. split.
    + intros Hin. apply list_elem_of_singleton in Hin. congruence.
    + apply NoDup_singleton.
Qed.

Lemma extents_from_shape_NoDup_witness :
  NoDup (extents_from_shape [1; 24; 32]).
Proof.
  apply (extents_from_shape_NoDup [1; 24; 32]).
  repeat constructor; discriminate.
Defined.

(** ** apply.py: the loop of [apply] *)


Section loop_facts.
Context {Matrix Pix : Type}.
Variable mf_identity : Z -> Matrix.
Variable mf_translate : Z -> list Qc -> Matrix.
Variable matmul : Matrix -> Matrix -> Matrix.
Variable vecmat : list Qc -> Matrix -> list Qc.
Variable Affine : Matrix -> gmap string pyval -> @MetaTensor Matrix Pix ->
                  outcome (@MetaTensor Matrix Pix).

Local Abbreviation body := (apply_body matmul vecmat Affine).
Local Abbreviation init := (apply_init mf_identity mf_translate matmul vecmat).

Lemma for_each_apply_body_composes queue (st : @apply_locals Matrix Pix) log :
  nothing_accumulated st ->
  exists st', for_each body queue st log = (Ok st', log)
              /\ cumulative_matrix st'
                 = fold_left (fun cm mm => matmul (matrix mm) cm) queue
                             (cumulative_matrix st)
              /\ length (cumulative_extents st') = length (cumulative_extents st)
              /\ cur_data st' = cur_data st.
Proof.
  revert st. induction queue as [|mm queue IH]; intros st Hst; simpl.
  - exists st. auto.
  - unfold bind. rewrite apply_body_nothing_accumulated by assumption.
    edestruct IH as (st' & -> & Hcm & Hlen & Hdata).
    { unfold nothing_accumulated; simpl; tauto. }
    exists st'. simpl in *. rewrite length_map in Hlen. auto.
Qed.

(** X4. From the start of [apply] the loop runs through any queue without
    invoking the resampler and leaves the image untouched; the cumulative
    matrix it ends with is the centring translation (composed with the
    identity) multiplied on the left by every entry's increment in queue
    order, oldest first; and the number of extents stays 2^d for an image
    with d axes after the leading one. *)
Theorem apply_loop_composes_in_queue_order
    (data : @MetaTensor Matrix Pix) (log : list resample_call) :
  exists st',
    for_each body (pending_transforms data) (init data) log = (Ok st', log)
    /\ cumulative_matrix st'
       = fold_left (fun cm mm => matmul (matrix mm) cm) (pending_transforms data)
           (matmul
              (mf_translate (Z.of_nat (length (shape data)) - 1)
                 (map (fun d => Q2Qc (inject_Z d / 2)) (drop 1 (shape data))))
              (mf_identity (Z.of_nat (length (shape data)) - 1)))
    /\ length (cumulative_extents st') = (2 ^ (length (shape data) - 1))%nat
    /\ cur_data st' = data.
Proof.
  destruct (for_each_apply_body_composes (pending_transforms data) (init data)
              log (apply_init_nothing_accumulated _ _ _ _ Affine data))
    as (st' & Hrun & Hcm & Hlen & Hdata).
  exists st'. split; [exact Hrun|]. split; [exact Hcm|]. split.
  - rewrite Hlen. unfold apply_init, starting_matrix_and_extents. simpl.
    rewrite !length_map. unfold extents_from_shape.
    rewrite length_map, product_two_way_length by reflexivity.
    now rewrite length_drop.
  - rewrite Hdata. apply apply_init_data.
Qed.


End loop_facts.


(** ** apply.py: [shape_from_extents] *)

Lemma qc_min_cases (a b : Qc) :
  (qc_min a b = a /\ (a <= b)%Qc) \/ (qc_min a b = b /\ (b <= a)%Qc).
Proof.
  unfold qc_min. destruct (Qle_bool a b) eqn:Hle.
  - left. split; [reflexivity|]. now apply Qle_bool_iff in Hle.
  - right. split; [reflexivity|].
    destruct (Qclt_le_dec b a) as [Hlt|Hge].
    + now apply Qclt_le_weak.
    + apply Qle_bool_iff in Hge. congruence.
Qed.

Lemma qc_max_cases (a b : Qc) :
  (qc_max a b = b /\ (a <= b)%Qc) \/ (qc_max a b = a /\ (b <= a)%Qc).
Proof.
  unfold qc_max. destruct (Qle_bool a b) eqn:Hle.
  - left. split; [reflexivity|]. now apply Qle_bool_iff in Hle.
  - right. split; [reflexivity|].
    destruct (Qclt_le_dec b a) as [Hlt|Hge].
    + now apply Qclt_le_weak.
    + apply Qle_bool_iff in Hge. congruence.
Qed.

(** The minimum of a column is one of its entries and lies below all. *)
Lemma fold_qc_min_spec (xs : list Qc) (x : Qc) :
  In (fold_left qc_min xs x) (x :: xs)
  /\ forall y, In y (x :: xs) -> (fold_left qc_min xs x <= y)%Qc.
Proof.
  revert x. induction xs as [|z xs IH]; intros x; simpl.
  - split; [now left|]. intros y [<-|[]]. apply Qcle_refl.
  - destruct (IH (qc_min x z)) as (Hin & Hlow).
    destruct (qc_min_cases x z) as [(Hm & Hle)|(Hm & Hle)]; rewrite Hm in *.
    + split.
      * destruct Hin as [<-|Hin]; [now left|now right; right].
      * intros y [<-|[<-|Hy]].
        -- apply Hlow. now left.
        -- eapply Qcle_trans; [apply Hlow; now left|exact Hle].
        -- apply Hlow. now right.
    + split.
      * destruct Hin as [<-|Hin]; [now right; left|now right; right].
      * intros y [<-|[<-|Hy]].
        -- eapply Qcle_trans; [apply Hlow; now left|exact Hle].
        -- apply Hlow. now left.
        -- apply Hlow. now right.
Qed.

Lemma fold_qc_max_spec (xs : list Qc) (x : Qc) :
  In (fold_left qc_max xs x) (x :: xs)
  /\ forall y, In y (x :: xs) -> (y <= fold_left qc_max xs x)%Qc.
Proof.
  revert x. induction xs as [|z xs IH]; intros x; simpl.
  - split; [now left|]. intros y [<-|[]]. apply Qcle_refl.
  - destruct (IH (qc_max x z)) as (Hin & Hup).
    destruct (qc_max_cases x z) as [(Hm & Hle)|(Hm & Hle)]; rewrite Hm in *.
    + split.
      * destruct Hin as [<-|Hin]; [now right; left|now right; right].
      * intros y [<-|[<-|Hy]].
        -- eapply Qcle_trans; [exact Hle|apply Hup; now left].
        -- apply Hup. now left.
        -- apply Hup. now right.
    + split.
      * destruct Hin as [<-|Hin]; [now left|now right; right].
      * intros y [<-|[<-|Hy]].
        -- apply Hup. now left.
        -- eapply Qcle_trans; [exact Hle|apply Hup; now left].
        -- apply Hup. now right.
Qed.

(** A column that only holds [lo] and [hi], and holds both, reduces to
    [lo] under the minimum and to [hi] under the maximum. *)
Lemma reduce_column_two_values (column : list Qc) (lo hi : Qc) :
  (lo <= hi)%Qc -> In lo column -> In hi column ->
  (forall y, In y column -> y = lo \/ y = hi) ->
  reduce_column qc_min column = lo /\ reduce_column qc_max column = hi.
Proof.
  intros Hle Hlo Hhi Hall. destruct column as [|x xs]; [destruct Hlo|].
  simpl. split.
  - destruct (fold_qc_min_spec xs x) as (Hin & Hlow).
    destruct (Hall _ Hin) as [Heq|Heq]; [exact Heq|].
    rewrite Heq. apply Qcle_antisym; [|exact Hle].
    rewrite <- Heq. now apply Hlow.
  - destruct (fold_qc_max_spec xs x) as (Hin & Hup).
    destruct (Hall _ Hin) as [Heq|Heq]; [|exact Heq].
    rewrite Heq. apply Qcle_antisym; [exact Hle|].
    rewrite <- Heq. now apply Hup.
Qed.

Lemma zip_map_same {A B C} (f : A -> B) (g : A -> C) (l : list A) :
  zip (map f l) (map g l) = map (fun x => (f x, g x)) l.
Proof. induction l as [|x l IH]; simpl; [reflexivity|]. now rewrite IH. Qed.

Lemma map_seq_nth {A} (h : nat -> A) (l : list A) (d : A) :
  (forall j, (j < length l)%nat -> h j = nth j l d) ->
  map h (seq 0 (length l)) = l.
Proof.
  intros Hh. apply (nth_ext _ _ (h 0%nat) d).
  - now rewrite length_map, length_seq.
  - intros j Hj. rewrite length_map, length_seq in Hj.
    rewrite (map_nth h (seq 0 (length l)) 0%nat j), seq_nth by assumption.
    now apply Hh.
Qed.

Lemma removelast_length {A} (l : list A) :
  length (removelast l) = (length l - 1)%nat.
Proof. rewrite removelast_firstn_len, length_firstn. lia. Qed.

Section shape_from_extents_facts.
Variable IntTensor_cast : Z -> Z.

Local Abbreviation sfe := (shape_from_extents IntTensor_cast).

(** The per-axis size computed from the stacked corners. *)
Local Abbreviation axis_size rows j :=
  (IntTensor_cast
     (Qceiling (this (reduce_column qc_max (column_of rows j)
                      - reduce_column qc_min (column_of rows j))%Qc))).

Lemma shape_from_extents_uniform (leading : Z) (src_rest : list Z)
    (first : list Qc) (rest : list (list Qc)) :
  Forall (fun row => length row = length first) rest ->
  sfe (leading :: src_rest) (first :: rest)
  = Ok (leading
        :: removelast (map (fun j => axis_size (first :: rest) j)
                           (seq 0 (length first)))).
Proof.
  intros Huniform. unfold shape_from_extents.
  assert (forallb (fun row => Nat.eqb (length row) (length first)) rest = true)
    as ->.
  { apply forallb_forall. intros row Hrow. apply Nat.eqb_eq.
    rewrite Forall_forall in Huniform. apply Huniform.
    now apply list_elem_of_In. }
  rewrite zip_map_same, map_map. reflexivity.
Qed.

(** X6. What [shape_from_extents] answers. Without corners, or without a
    leading axis in [src_shape], it fails with an index error; corners of
    different lengths cannot be stacked. Otherwise the result starts with
    the leading axis of [src_shape], untouched, and has one entry for every
    coordinate of a corner but the last (the homogeneous 1 is dropped). *)
Theorem shape_from_extents_answer (src_shape : list Z) (first : list Qc)
    (rest : list (list Qc)) :
  shape_from_extents IntTensor_cast src_shape []
  = Raise (ExternalError "IndexError")
  /\ (~ Forall (fun row => length row = length first) rest ->
      shape_from_extents IntTensor_cast src_shape (first :: rest)
      = Raise (ExternalError "cannot stack"))
  /\ (Forall (fun row => length row = length first) rest ->
      match src_shape with
      | [] =>
        shape_from_extents IntTensor_cast src_shape (first :: rest)
        = Raise (ExternalError "IndexError")
      | leading :: _ =>
        exists values,
          shape_from_extents IntTensor_cast src_shape (first :: rest)
          = Ok (leading :: values)
          /\ length values = (length first - 1)%nat
      end).
Proof.
  split; [reflexivity|]. split.
  - intros Hragged. unfold shape_from_extents.
    destruct (forallb _ rest) eqn:Hall; [|reflexivity].
    exfalso. apply Hragged. apply Forall_forall. intros row Hrow.
    rewrite forallb_forall in Hall. apply Nat.eqb_eq, Hall.
    now apply list_elem_of_In.
  - intros Huniform. destruct src_shape as [|leading src_rest].
    + unfold shape_from_extents.
      assert (forallb (fun row => Nat.eqb (length row) (length first)) rest = true)
        as ->; [|reflexivity].
      apply forallb_forall. intros row Hrow. apply Nat.eqb_eq.
      rewrite Forall_forall in Huniform. apply Huniform.
      now apply list_elem_of_In.
    + eexists. split; [now apply shape_from_extents_uniform|].
      rewrite removelast_length, length_map, length_seq. reflexivity.
Qed.

End shape_from_extents_facts.

Lemma shape_from_extents_answer_witness :
  shape_from_extents wrap_int32 [1; 24; 32]
    (map (map (fun c => Q2Qc (inject_Z c)))
         [[-16; -20; 1]; [-16; 20; 1]; [16; -20; 1]; [16; 20; 1]])
  = Ok [1; 32; 40].
Proof.
  destruct (shape_from_extents_answer wrap_int32 [1; 24; 32]
              (map (fun c => Q2Qc (inject_Z c)) [-16; -20; 1])
              (map (map (fun c => Q2Qc (inject_Z c)))
                   [[-16; 20; 1]; [16; -20; 1]; [16; 20; 1]]))
    as (_ & _ & Hok).
  destruct Hok as (values & Hrun & _); [repeat constructor|].
  vm_compute. reflexivity.
Defined.

(** The rational corners of a shape. *)
Lemma in_rational_corners (dims : list Z) (row : list Qc) :
  In row (map (map (fun c => Q2Qc (inject_Z c)))
              (map (fun e => e ++ [1]) (product (map (fun d => [0; d]) dims))))
  <-> exists c, row = map (fun c => Q2Qc (inject_Z c)) (c ++ [1])
                /\ Forall2 (fun x d => x = 0 \/ x = d) c dims.
Proof.
  rewrite in_map_iff. split.
  - intros (e & <- & He). apply in_map_iff in He as (c & <- & Hc).
    exists c. split; [reflexivity|].
    now apply Forall2_corner_pools, in_product.
  - intros (c & -> & Hc). exists (c ++ [1]). split; [reflexivity|].
    apply in_map_iff. exists c. split; [reflexivity|].
    now apply in_product, Forall2_corner_pools.
Qed.

Lemma nth_rational_corner (c : list Z) (j : nat) :
  (j < length c)%nat ->
  nth j (map (fun c => Q2Qc (inject_Z c)) (c ++ [1])) 0%Qc
  = Q2Qc (inject_Z (nth j c 0)).
Proof.
  intros Hj.
  change 0%Qc with ((fun c => Q2Qc (inject_Z c)) 0).
  rewrite map_nth. now rewrite app_nth1.
Qed.

Lemma Forall2_nth_choice (c dims : list Z) (j : nat) :
  Forall2 (fun x d => x = 0 \/ x = d) c dims -> (j < length dims)%nat ->
  nth j c 0 = 0 \/ nth j c 0 = nth j dims 0.
Proof.
  intros Hall. revert j. induction Hall as [|x d c dims Hx Hall IH]; intros j Hj.
  - simpl in Hj. lia.
  - destruct j as [|j]; simpl; [exact Hx|]. apply IH. simpl in Hj. lia.
Qed.

Lemma Qceiling_rational_integer (d : Z) :
  Qceiling (this (Q2Qc (inject_Z d) - 0)%Qc) = d.
Proof.
  replace (Q2Qc (inject_Z d) - 0)%Qc with (Q2Qc (inject_Z d)) by ring.
  simpl. rewrite (Qceiling_comp _ (inject_Z d)) by apply Qred_correct.
  apply Qceiling_Z.
Qed.

Lemma rational_zero_le (d : Z) : 0 <= d -> (0 <= Q2Qc (inject_Z d))%Qc.
Proof.
  intros Hd. unfold Qcle. simpl. rewrite !Qred_correct.
  change 0%Q with (inject_Z 0). now rewrite <- Zle_Qle.
Qed.

Lemma nth_all_zero (dims : list Z) (j : nat) :
  nth j (map (fun _ : Z => 0) dims) 0 = 0.
Proof.
  destruct (nth_in_or_default j (map (fun _ : Z => 0) dims) 0) as [Hin|Hd];
    [|exact Hd].
  apply in_map_iff in Hin as (d & Hd & _). now symmetry.
Qed.

(** Column [j] of the rational corners of a shape with non-negative sizes
    has minimum 0 and maximum the size of axis [j]. *)
Lemma rational_corner_column (dims : list Z) (j : nat) :
  Forall (fun d => 0 <= d) dims -> (j < length dims)%nat ->
  let rows := map (map (fun c => Q2Qc (inject_Z c)))
                  (map (fun e => e ++ [1])
                       (product (map (fun d => [0; d]) dims))) in
  reduce_column qc_min (column_of rows j) = 0%Qc
  /\ reduce_column qc_max (column_of rows j) = Q2Qc (inject_Z (nth j dims 0)).
Proof.
  intros Hdims Hj rows.
  apply reduce_column_two_values.
  - apply rational_zero_le. rewrite Forall_forall in Hdims.
    apply Hdims, list_elem_of_In, nth_In, Hj.
  - apply in_map_iff.
    exists (map (fun c => Q2Qc (inject_Z c)) (map (fun _ => 0) dims ++ [1])).
    split.
    + rewrite nth_rational_corner by now rewrite length_map.
      now rewrite nth_all_zero.
    + apply in_rational_corners. eexists. split; [reflexivity|].
      clear. induction dims; simpl; constructor; auto.
  - apply in_map_iff.
    exists (map (fun c => Q2Qc (inject_Z c)) (dims ++ [1])). split.
    + now rewrite nth_rational_corner.
    + apply in_rational_corners. eexists. split; [reflexivity|].
      clear. induction dims; simpl; constructor; auto.
  - intros y Hy. apply in_map_iff in Hy as (row & <- & Hrow).
    apply in_rational_corners in Hrow as (c & -> & Hc).
    rewrite nth_rational_corner
      by (apply Forall2_length in Hc; now rewrite Hc).
    destruct (Forall2_nth_choice c dims j Hc Hj) as [-> | ->]; auto.
Qed.

Section shape_from_extents_round_trip.
Variable IntTensor_cast : Z -> Z.

(** X7. Round trip between the two helpers: for a shape whose sizes after
    the leading axis are non-negative and fit 32 bits, the shape derived
    from the (real-valued) corners of that shape is the shape itself. *)
Theorem shape_from_extents_of_extents_from_shape (shape : list Z) :
  (forall n, 0 <= n < 2 ^ 31 -> IntTensor_cast n = n) ->
  shape <> [] ->
  Forall (fun d => 0 <= d < 2 ^ 31) (drop 1 shape) ->
  shape_from_extents IntTensor_cast shape
    (map (map (fun c => Q2Qc (inject_Z c))) (extents_from_shape shape))
  = Ok shape.
Proof.
  intros Hcast Hne Hdims. destruct shape as [|leading dims]; [contradiction|].
  change (drop 1 (leading :: dims)) with dims in Hdims.
  unfold extents_from_shape. change (drop 1 (leading :: dims)) with dims.
  set (rows := map (map (fun c => Q2Qc (inject_Z c)))
                   (map (fun e => e ++ [1])
                        (product (map (fun d => [0; d]) dims)))).
  assert (Hlen : forall row, In row rows -> length row = S (length dims)).
  { intros row Hrow. apply in_rational_corners in Hrow as (c & -> & Hc).
    apply Forall2_length in Hc.
    rewrite length_map, length_app. simpl. lia. }
  assert (Hnonneg : Forall (fun d => 0 <= d) dims).
  { eapply Forall_impl; [exact Hdims|]. simpl. intros d Hd. lia. }
  destruct rows as [|first rest] eqn:Hrows.
  { exfalso.
    assert (In (map (fun c => Q2Qc (inject_Z c)) (dims ++ [1])) rows) as Hin.
    { apply in_rational_corners. eexists. split; [reflexivity|].
      clear. induction dims; simpl; constructor; auto. }
    rewrite Hrows in Hin. destruct Hin. }
  rewrite shape_from_extents_uniform.
  - f_equal. f_equal. rewrite (Hlen first) by now left.
    rewrite seq_S, map_app. simpl (map _ [_]). rewrite removelast_last.
    apply map_seq_nth with (d := 0). intros j Hj.
    rewrite <- Hrows.
    destruct (rational_corner_column dims j Hnonneg Hj) as (Hmin & Hmax).
    fold rows in Hmin, Hmax. rewrite Hrows in Hmin, Hmax.
    rewrite Hrows, Hmin, Hmax, Qceiling_rational_integer.
    apply Hcast. rewrite Forall_forall in Hdims.
    apply Hdims, list_elem_of_In, nth_In, Hj.
  - apply Forall_forall. intros row Hrow.
    rewrite (Hlen first) by now left.
    apply Hlen. right. now apply list_elem_of_In.
Qed.

End shape_from_extents_round_trip.

Lemma wrap_int32_in_range (n : Z) : 0 <= n < 2 ^ 31 -> wrap_int32 n = n.
Proof.
  intros Hn. unfold wrap_int32. rewrite Z.mod_small; lia.
Qed.

Lemma shape_from_extents_of_extents_from_shape_witness :
  shape_from_extents wrap_int32 [1; 24; 32]
    (map (map (fun c => Q2Qc (inject_Z c))) (extents_from_shape [1; 24; 32]))
  = Ok [1; 24; 32].
Proof.
  apply (shape_from_extents_of_extents_from_shape wrap_int32 [1; 24; 32]).
  - exact wrap_int32_in_range.
  - discriminate.
  - repeat constructor; lia.
Defined.








Section shape_from_extents_translation.
Variable IntTensor_cast : Z -> Z.


End shape_from_extents_translation.


(** ** array.py: what the wrappers do and never do *)

Section wrapper_more_facts.
Context {Matrix Pix rng : Type}.
Variable mf_identity : Z -> Matrix.
Variable mf_translate : Z -> list Qc -> Matrix.
Variable matmul : Matrix -> Matrix -> Matrix.
Variable vecmat : list Qc -> Matrix -> list Qc.
Variable Affine : Matrix -> gmap string pyval -> @MetaTensor Matrix Pix ->
                  outcome (@MetaTensor Matrix Pix).
Variable spacing : @NdarrayOrTensor Matrix Pix -> pyval -> pyval -> pyval ->
                   pyval -> pyval -> pyval -> pyval -> pyval ->
                   outcome (@built Matrix Pix).
Variable flip : @NdarrayOrTensor Matrix Pix -> pyval -> pyval ->
                outcome (@built Matrix Pix).
Variable resize : @NdarrayOrTensor Matrix Pix -> pyval -> pyval -> pyval ->
                  pyval -> pyval -> pyval -> pyval -> pyval ->
                  outcome (@built Matrix Pix).
Variable rotate : @NdarrayOrTensor Matrix Pix -> pyval -> pyval -> pyval ->
                  pyval -> pyval -> pyval -> pyval ->
                  outcome (@built Matrix Pix).
Variable zoom : @NdarrayOrTensor Matrix Pix -> pyval -> pyval -> pyval ->
                pyval -> pyval -> pyval -> pyval ->
                outcome (@built Matrix Pix).
Variable rotate90 : @NdarrayOrTensor Matrix Pix -> pyval -> pyval -> pyval ->
                    outcome (@built Matrix Pix).
Variable translate : @NdarrayOrTensor Matrix Pix -> pyval -> pyval -> pyval ->
                     pyval -> pyval -> outcome (@built Matrix Pix).
Variable croppad : @NdarrayOrTensor Matrix Pix -> pyval -> pyval -> pyval ->
                   outcome (@built Matrix Pix).
Variable R_uniform : rng -> Qc -> Qc -> Qc * rng.
Variable R_randint : rng -> pyval -> Z * rng.
Variable RandomizableTransform_randomize : rng -> pyval -> bool * rng.

Local Abbreviation tail :=
  (push_then_apply mf_identity mf_translate matmul vecmat Affine).
Local Abbreviation Spacing_call' :=
  (Spacing_call mf_identity mf_translate matmul vecmat Affine spacing).
Local Abbreviation Flip_call' :=
  (Flip_call mf_identity mf_translate matmul vecmat Affine flip).
Local Abbreviation Resize_call' :=
  (Resize_call mf_identity mf_translate matmul vecmat Affine resize).
Local Abbreviation Rotate_call' :=
  (Rotate_call mf_identity mf_translate matmul vecmat Affine rotate).
Local Abbreviation Zoom_call' :=
  (Zoom_call mf_identity mf_translate matmul vecmat Affine zoom).
Local Abbreviation Rotate90_call' :=
  (Rotate90_call mf_identity mf_translate matmul vecmat Affine rotate90).
Local Abbreviation Translate_call' :=
  (Translate_call mf_identity mf_translate matmul vecmat Affine translate).
Local Abbreviation CropPad_call' :=
  (CropPad_call mf_identity mf_translate matmul vecmat Affine croppad).
Local Abbreviation RandRotate_call' :=
  (RandRotate_call mf_identity mf_translate matmul vecmat Affine rotate
                   R_uniform RandomizableTransform_randomize).
Local Abbreviation RandRotate90_call' :=
  (RandRotate90_call mf_identity mf_translate matmul vecmat Affine rotate90
                     R_randint RandomizableTransform_randomize).

Lemma built_then_tail_keeps_log (o : outcome (@built Matrix Pix))
    (lazy_evaluation : pyval) (log : list resample_call) :
  snd ((let! r := lift o in tail lazy_evaluation r) log) = log.
Proof.
  unfold bind, lift. destruct o as [[[img_t tr] md]|e]; [|reflexivity].
  unfold push_then_apply. destruct (truthy lazy_evaluation); reflexivity.
Qed.

(** X9. No call of a wrapper reaches the resampler, however the wrapper is
    configured and whatever it is called with: the log of resampler
    invocations after the call is the log before it. Deferred, the wrapper
    only pushes; eager, [apply] fails before it resamples. *)
Theorem wrapper_calls_never_resample (img : NdarrayOrTensor)
    (a1 a2 a3 a4 a5 : pyval) (log : list resample_call) :
  (forall self, snd (Spacing_call' self img a1 a2 a3 a4 a5 log) = log)
  /\ (forall self, snd (snd (Flip_call' self img a1 a2) log) = log)
  /\ (forall self, snd (Resize_call' self img a1 a2 a3 a4 a5 log) = log)
  /\ (forall self, snd (Rotate_call' self img a1 a2 a3 a4 a5 log) = log)
  /\ (forall self, snd (Zoom_call' self img a1 a2 a3 a4 a5 log) = log)
  /\ (forall self, snd (Rotate90_call' self img a1 a2 a3 log) = log)
  /\ (forall self, snd (Translate_call' self img a1 a2 a3 log) = log)
  /\ (forall self, snd (CropPad_call' self img a1 a2 log) = log)
  /\ (forall self a6,
        snd (snd (RandRotate_call' self img a1 a2 a3 a4 a5 a6) log) = log)
  /\ (forall self, snd (snd (RandRotate90_call' self img a1 a2) log) = log).
Proof.
  repeat split; intros; apply built_then_tail_keeps_log.
Qed.

(** X10. A [Zoom] configured for deferred evaluation, called on an image
    for which the builder succeeds, returns the builder's image with
    exactly one entry appended to its queue (the builder's matrix and
    metadata), shape and pixels as the builder left them, and makes no
    resampler call. The builder receives each call-time value that is not
    [None] and the stored default otherwise. *)
Theorem Zoom_deferred_call_pushes_one_entry
    (self : Zoom) (img : NdarrayOrTensor)
    (factor mode padding_mode align_corners shape_override : pyval)
    (img_t : MetaTensor) (tr : Matrix) (md : gmap string pyval)
    (log : list resample_call) :
  truthy (Zoom_lazy_evaluation self) = true ->
  zoom img
       (if bool_decide (factor = PNone) then Zoom_factor self else factor)
       (if bool_decide (mode = PNone) then Zoom_mode self else mode)
       (if bool_decide (padding_mode = PNone) then Zoom_padding_mode self
        else padding_mode)
       (if bool_decide (align_corners = PNone) then Zoom_align_corners self
        else align_corners)
       (Zoom_keep_size self) (Zoom_dtype self)
       (resolve_shape_override img shape_override)
  = Ok (img_t, tr, md) ->
  Zoom_call' self img factor mode padding_mode align_corners shape_override log
  = (Ok (RImage (mkMetaTensor (shape img_t) (pixels img_t)
                              (pending_transforms img_t ++ [mkMetaMatrix tr md]))),
     log).
Proof.
  intros Hlazy Hbuilt. unfold Zoom_call, Zoom_resolve, bind, lift.
  rewrite Hbuilt. unfold push_then_apply. rewrite Hlazy. reflexivity.
Qed.

Lemma py_or_number_over_zero (q : Qc) : py_or (PNum q) (PNum 0) = PNum q.
Proof.
  unfold py_or, truthy. case_bool_decide as Hq; [|reflexivity].
  now rewrite Hq.
Qed.

(** X11. [RandRotate90], as constructed, forwards the number of quarter
    turns it decided on to the builder: the drawn number plus one when the
    draw says to transform, 0 otherwise (and 0 when called with
    [randomize] off, straight after construction); the axes are the stored
    ones. *)
Theorem RandRotate90_call_forwards_k
    (do_transform : bool) (R : rng)
    (prob max_k spatial_axes lazy_evaluation : pyval)
    (img : NdarrayOrTensor) (randomize shape_override : pyval) :
  let self := RandRotate90_init do_transform R prob max_k spatial_axes
                                lazy_evaluation in
  let k :=
    if truthy randomize
    then if fst (RandomizableTransform_randomize R prob)
         then fst (R_randint (snd (RandomizableTransform_randomize R prob))
                             max_k) + 1
         else 0
    else 0 in
  snd (RandRotate90_call' self img randomize shape_override)
  = (let! r := lift (rotate90 img (PNum (Q2Qc (inject_Z k))) spatial_axes
                              (resolve_shape_override img shape_override)) in
     tail lazy_evaluation r).
Proof.
  intros self k. unfold k, self, RandRotate90_call, RandRotate90_init,
    RandRotate90_randomize, Rotate90_init.
  destruct (truthy randomize); simpl.
  - destruct (RandomizableTransform_randomize R prob) as [[|] R']; simpl.
    + destruct (R_randint R' max_k) as [drawn R'']; simpl.
      unfold Rotate90_call, Rotate90_resolve. simpl.
      now rewrite py_or_number_over_zero.
    + reflexivity.
  - destruct do_transform; reflexivity.
Qed.

End wrapper_more_facts.

Lemma Zoom_deferred_call_pushes_one_entry_witness :
  Zoom_call q_identity q_translate q_matmul q_vecmat Affine_passthrough
            q_builder8
            (mkZoom (PNum 2) (PStr "bilinear") (PStr "edge") PNone (PBool true)
                    (PObj 32) (PBool true))
            (Plain [1; 2; 2] tt) PNone (PStr "nearest") PNone PNone PNone []
  = (Ok (RImage (mkMetaTensor [1; 2; 2] tt
                   [mkMetaMatrix (q_identity 2)
                                 {[ "mode"%string := PStr "nearest" ]}])), []).
Proof.
  apply (Zoom_deferred_call_pushes_one_entry
           q_identity q_translate q_matmul q_vecmat Affine_passthrough q_builder8
           (mkZoom (PNum 2) (PStr "bilinear") (PStr "edge") PNone (PBool true)
                   (PObj 32) (PBool true))
           (Plain [1; 2; 2] tt) PNone (PStr "nearest") PNone PNone PNone
           (mkMetaTensor [1; 2; 2] tt []) (q_identity 2)
           {[ "mode"%string := PStr "nearest" ]} []);
    reflexivity.
Defined.

Lemma Rotate_eager_is_deferred_then_apply_witness :
  Rotate_call q_identity q_translate q_matmul q_vecmat Affine_passthrough
              q_builder8
              (mkRotate (PNum 1) (PBool true) (PStr "bilinear") (PStr "border")
                        (PBool false) (PObj 32) (PBool false))
              (Plain [1; 2; 2] tt) PNone PNone PNone PNone PNone []
  = then_apply q_identity q_translate q_matmul q_vecmat Affine_passthrough
      (Rotate_call q_identity q_translate q_matmul q_vecmat Affine_passthrough
                   q_builder8
                   (mkRotate (PNum 1) (PBool true) (PStr "bilinear")
                             (PStr "border") (PBool false) (PObj 32)
                             (PBool true))
                   (Plain [1; 2; 2] tt) PNone PNone PNone PNone PNone) [].
Proof.
  apply (Rotate_eager_is_deferred_then_apply
           q_identity q_translate q_matmul q_vecmat Affine_passthrough
           q_builder8);
    reflexivity.
Defined.

(** X12. The shape override a wrapper works with. A value passed by the
    caller is used as it is. Without one, a plain array and a [MetaTensor]
    with an empty queue give [None], and a [MetaTensor] with pending
    entries gives what the last entry holds under ["shape_override"]: the
    hint of the entry pushed last is the one the next wrapper reads. *)
Theorem resolve_shape_override_reads_last_entry {Matrix Pix : Type}
    (t : @MetaTensor Matrix Pix) (mm : @MetaMatrix Matrix)
    (img : @NdarrayOrTensor Matrix Pix) (shape : list Z) (pixels : Pix)
    (shape_override : pyval) :
  (shape_override <> PNone ->
   resolve_shape_override img shape_override = shape_override)
  /\ resolve_shape_override (@Plain Matrix Pix shape pixels) PNone = PNone
  /\ resolve_shape_override (Meta (@mkMetaTensor Matrix Pix shape pixels []))
                            PNone = PNone
  /\ resolve_shape_override (Meta (push_pending_transform t mm)) PNone
     = dict_get (metadata mm) "shape_override".
Proof.
  split; [|split; [reflexivity|split; [reflexivity|]]].
  - intros Hset. unfold resolve_shape_override. destruct img; [reflexivity|].
    now rewrite bool_decide_false.
  - unfold resolve_shape_override, has_pending_transforms,
      peek_pending_transform, push_pending_transform. simpl.
    rewrite last_snoc.
    destruct (pending_transforms t); reflexivity.
Qed.

Lemma resolve_shape_override_reads_last_entry_witness :
  resolve_shape_override (Meta two_mode_image) (PSeq [1%Qc; 2%Qc; 2%Qc])
  = PSeq [1%Qc; 2%Qc; 2%Qc].
Proof.
  apply (resolve_shape_override_reads_last_entry
           two_mode_image nearest_entry (Meta two_mode_image) [] tt
           (PSeq [1%Qc; 2%Qc; 2%Qc])).
  discriminate.
Defined.

(** ** utility.py: the cache wrapper in sequence and under failure *)

Section CachedTransform_more_facts.
Context {C K V Args : Type} `{CacheMechanism C K V}.

(** X13. At most one computation per key, in sequence: when a first call
    misses, runs the transforms and stores their result, and the cache
    then reports the key present with that result, a second call with the
    same key returns the same result whatever arguments it is given, and
    the transforms have been invoked once in total, with the first call's
    arguments. *)
Theorem CachedTransform_second_call_is_a_hit
    (self : @CachedTransform V Args) (key : K) (args args' : Args)
    (w : @cache_world C Args) (placeholder result : V) (c1 c2 c3 : C) :
  try_fetch (world_cache w) key = (Ok (false, placeholder), c1) ->
  CachedTransform_transforms self args = Ok result ->
  store c1 key result = (Ok tt, c2) ->
  try_fetch c2 key = (Ok (true, result), c3) ->
  (let! first := CachedTransform_call self key args in
   let! second := CachedTransform_call self key args' in
   ret (first, second)) w
  = (Ok (result, result), mkWorld c3 (world_calls w ++ [args])).
Proof.
  intros Hmiss Hrun Hstore Hhit.
  unfold CachedTransform_call, bind, cache_try_fetch, run_transforms,
    cache_store, ret.
  rewrite Hmiss. simpl. rewrite Hrun, Hstore. simpl. rewrite Hhit.
  reflexivity.
Qed.

(** X14. Failures pass through the cache wrapper unchanged. If [try_fetch]
    raises, the transforms are not invoked. If the transforms raise after a
    miss, nothing is stored: the cache is as [try_fetch] left it. If
    [store] raises, its exception reaches the caller in place of the
    computed result. *)
Theorem CachedTransform_call_propagates_failures
    (self : @CachedTransform V Args) (key : K) (args : Args)
    (w : @cache_world C Args) (e : exn) (c1 : C) :
  (try_fetch (world_cache w) key = (Raise e, c1) ->
   CachedTransform_call self key args w
   = (Raise e, mkWorld c1 (world_calls w)))
  /\ (forall placeholder,
        try_fetch (world_cache w) key = (Ok (false, placeholder), c1) ->
        CachedTransform_transforms self args = Raise e ->
        CachedTransform_call self key args w
        = (Raise e, mkWorld c1 (world_calls w ++ [args])))
  /\ (forall placeholder result c2,
        try_fetch (world_cache w) key = (Ok (false, placeholder), c1) ->
        CachedTransform_transforms self args = Ok result ->
        store c1 key result = (Raise e, c2) ->
        CachedTransform_call self key args w
        = (Raise e, mkWorld c2 (world_calls w ++ [args]))).
Proof.
  unfold CachedTransform_call, bind, cache_try_fetch, run_transforms,
    cache_store.
  split; [|split].
  - intros ->. reflexivity.
  - intros placeholder -> Hrun. simpl. now rewrite Hrun.
  - intros placeholder result c2 -> Hrun Hstore. simpl.
    now rewrite Hrun, Hstore.
Qed.

End CachedTransform_more_facts.

Lemma CachedTransform_second_call_is_a_hit_witness :
  (let! first := @CachedTransform_call _ _ _ _ (dict_cache 0) doubling "b" 5 in
   let! second := @CachedTransform_call _ _ _ _ (dict_cache 0) doubling "b" 9 in
   ret (first, second)) warm_world
  = (Ok (10, 10), mkWorld (<["b"%string := 10]> {[ "a"%string := 7 ]}) [5]).
Proof.
  apply (@CachedTransform_second_call_is_a_hit _ _ _ _ (dict_cache 0)
           doubling "b"%string 5 9 warm_world 0 10 {[ "a"%string := 7 ]}
           (<["b"%string := 10]> {[ "a"%string := 7 ]}));
    reflexivity.
Defined.

Lemma CachedTransform_call_propagates_failures_witness :
  @CachedTransform_call _ _ _ _ (dict_cache 0) rejecting "b" 5 warm_world
  = (Raise ValueError, mkWorld {[ "a"%string := 7 ]} [5]).
Proof.
  apply (proj1 (proj2 (@CachedTransform_call_propagates_failures
                         _ _ _ _ (dict_cache 0) rejecting "b"%string 5
                         warm_world ValueError {[ "a"%string := 7 ]})) 0);
    reflexivity.
Defined.

(** ** utility.py: what [MultiSampleTransform] gathers *)

Section MultiSampleTransform_facts.
Context {T : Type}.
Variable tensor_rows : T -> outcome (list T).

Local Abbreviation call := (MultiSampleTransform_call tensor_rows).

Lemma MultiSampleTransform_loop_gathers (self : @MultiSampleTransform T)
    (items outs : list sample) (output : list sample)
    (log : list invocation) :
  Forall2 (fun item out => MultiSampleTransform_multi_sample self item = Ok out
                           /\ is_Some (gathered out)) items outs ->
  for_each (MultiSampleTransform_body self) items output log
  = (Ok (output ++ concat (map (fun out => default [] (gathered out)) outs)),
     log ++ map CallMultiSample items).
Proof.
  intros Hall. revert output log.
  induction Hall as [|item out items outs (Hout & Hgath) Hall IH];
    intros output log; simpl.
  - now rewrite !app_nil_r.
  - unfold bind at 1. unfold MultiSampleTransform_body at 1.
    unfold bind, call_multi_sample. rewrite Hout.
    destruct out as [t0|l|l|id]; simpl in *;
      try (destruct Hgath as [? Hgath]; discriminate).
    + unfold ret. rewrite IH. now rewrite <- !app_assoc.
    + unfold ret. rewrite IH. now rewrite <- !app_assoc.
Qed.

(** X15. When the sampler succeeds on the input and on every item it
    yielded, each time with a tensor or a list, the call returns those
    results gathered in yield order, a tensor as one element and a list
    flattened one level, and the sampler has been invoked once on the
    input and once on each item, in that order. In particular an input
    that yields nothing gives the empty list. *)
Theorem MultiSampleTransform_call_gathers_in_yield_order
    (self : @MultiSampleTransform T) (t yielded : sample)
    (items outs : list sample) (log : list invocation) :
  MultiSampleTransform_multi_sample self t = Ok yielded ->
  iter_items tensor_rows yielded = Ok items ->
  Forall2 (fun item out => MultiSampleTransform_multi_sample self item = Ok out
                           /\ is_Some (gathered out)) items outs ->
  call self t log
  = (Ok (concat (map (fun out => default [] (gathered out)) outs)),
     log ++ CallMultiSample t :: map CallMultiSample items).
Proof.
  intros Hyield Hitems Hall.
  unfold MultiSampleTransform_call, bind, call_multi_sample.
  rewrite Hyield, Hitems.
  rewrite (MultiSampleTransform_loop_gathers self items outs) by assumption.
  now rewrite <- app_assoc.
Qed.

(** X16. The call stops at the first item on which the sampler raises or
    answers with something that is neither a tensor nor a list: the
    sampler's exception, or [ValueError], reaches the caller, what was
    gathered so far is lost, and no later item is visited. *)
Theorem MultiSampleTransform_call_stops_at_first_failure
    (self : @MultiSampleTransform T) (t yielded bad : sample)
    (good outs later : list sample) (bad_result : outcome sample)
    (log : list invocation) :
  MultiSampleTransform_multi_sample self t = Ok yielded ->
  iter_items tensor_rows yielded = Ok (good ++ bad :: later) ->
  Forall2 (fun item out => MultiSampleTransform_multi_sample self item = Ok out
                           /\ is_Some (gathered out)) good outs ->
  MultiSampleTransform_multi_sample self bad = bad_result ->
  match bad_result with
  | Ok out => gathered out = None
  | Raise _ => True
  end ->
  call self t log
  = (Raise (match bad_result with Ok _ => ValueError | Raise e => e end),
     log ++ CallMultiSample t :: map CallMultiSample (good ++ [bad])).
Proof.
  intros Hyield Hitems Hall Hbad Hkind.
  unfold MultiSampleTransform_call, bind, call_multi_sample.
  rewrite Hyield, Hitems.
  assert (forall output log',
             for_each (MultiSampleTransform_body self) (good ++ bad :: later)
                      output log'
             = (Raise (match bad_result with Ok _ => ValueError | Raise e => e end),
                log' ++ map CallMultiSample (good ++ [bad]))) as Hloop.
  { clear Hyield Hitems. induction Hall as [|item out good outs (Hout & Hgath) Hall IH];
      intros output log'; simpl.
    - unfold bind, MultiSampleTransform_body, bind, call_multi_sample.
      rewrite Hbad. destruct bad_result as [out|e]; [|reflexivity].
      destruct out; try discriminate; reflexivity.
    - unfold bind at 1. unfold MultiSampleTransform_body at 1.
      unfold bind, call_multi_sample. rewrite Hout.
      destruct out as [t0|l|l|id]; simpl in *;
        try (destruct Hgath as [? Hgath]; discriminate);
        unfold ret; rewrite IH; now rewrite <- !app_assoc. }
  rewrite Hloop. now rewrite <- app_assoc.
Qed.

End MultiSampleTransform_facts.

Lemma MultiSampleTransform_call_gathers_in_yield_order_witness :
  MultiSampleTransform_call scalar_tensor
    (mkMultiSampleTransform splitting_sampler adding_pipeline) (STensor 0) []
  = (Ok [STensor 11; STensor 12],
     [CallMultiSample (STensor 0); CallMultiSample (STensor 1);
      CallMultiSample (STensor 2)]).
Proof.
  apply (MultiSampleTransform_call_gathers_in_yield_order scalar_tensor
           (mkMultiSampleTransform splitting_sampler adding_pipeline)
           (STensor 0) (SList [STensor 1; STensor 2])
           [STensor 1; STensor 2] [STensor 11; STensor 12] []);
    try reflexivity.
  repeat constructor; eexists; reflexivity.
Defined.

Lemma MultiSampleTransform_call_stops_at_first_failure_witness :
  MultiSampleTransform_call scalar_tensor
    (mkMultiSampleTransform generator_sampler adding_pipeline) (STensor 0) []
  = (Raise ValueError,
     [CallMultiSample (STensor 0); CallMultiSample (STensor 1)]).
Proof.
  apply (MultiSampleTransform_call_stops_at_first_failure scalar_tensor
           (mkMultiSampleTransform generator_sampler adding_pipeline)
           (STensor 0) (SGen [STensor 1; STensor 2]) (STensor 1)
           [] [] [STensor 2] (Ok (SGen [STensor 1; STensor 2])) []);
    try reflexivity.
  constructor.
Defined.
